(** * Cover crop selection guide: the goal / crop filter and the
      recommendation request of [app.py]

    The development embeds the Streamlit script [app.py]:
    - Python text ([str]) is a [string]; the characters modelled are the
      ASCII code points, so case folding and white space are the ASCII ones
      and a code of 128 or more is kept as an uncased, non-blank character;
    - [Series.str.contains(pat, case=False)] is pandas' default regular
      expression search: [re.compile(pat, re.IGNORECASE)] followed by
      [regex.search] on every entry.  The pattern language is embedded for
      the fragment made of literals, [.], [|] and parenthesised groups; for
      a pattern using any other special character the outcome of
      [re.compile] is a parameter of the development.  The script pins no
      pandas version, and the versions differ on a column without any
      entry: with text columns held as Python objects the pattern is
      compiled first, whereas with Arrow-backed text columns an empty column
      gives an empty mask whatever the pattern is; which of the two happens
      is a parameter too ([compiles_empty_series]);
    - data frames live in a store of objects, [st.session_state] is a finite
      map, and the script is written in a state-and-exception monad. *)

From Stdlib Require Import Ascii String List Bool Arith Lia ZArith QArith DecimalString.
From stdpp Require Import base gmap strings list sorting.

Local Open Scope Z_scope.
Local Open Scope nat_scope.
Local Open Scope list_scope.
Local Open Scope stdpp_scope.

(** ** Python text *)

Module Py.

Definition chars (s : string) : list ascii := list_ascii_of_string s.
Definition text (l : list ascii) : string := string_of_list_ascii l.

(** [str.lower] on one ASCII character. *)
Definition lower (c : ascii) : ascii :=
  let n := nat_of_ascii c in
  if (65 <=? n) && (n <=? 90) then ascii_of_nat (n + 32) else c.

(** [str.isspace] on one ASCII character: tab, line feed, vertical tab,
    form feed, carriage return, the four separators 28 to 31, and space. *)
Definition isspace (c : ascii) : bool :=
  let n := nat_of_ascii c in
  ((9 <=? n) && (n <=? 13)) || ((28 <=? n) && (n <=? 32)).

Fixpoint lstrip (l : list ascii) : list ascii :=
  match l with
  | c :: l' => if isspace c then lstrip l' else l
  | [] => []
  end.

Fixpoint rstrip (l : list ascii) : list ascii :=
  match l with
  | c :: l' =>
      match rstrip l' with
      | [] => if isspace c then [] else [c]
      | r => c :: r
      end
  | [] => []
  end.

(** [s.strip()] *)
Definition strip (s : string) : string := text (rstrip (lstrip (chars s))).

(** [sep.join(l)] *)
Definition join (sep : string) (l : list string) : string := String.concat sep l.

(** [str(n)] for a natural number *)
Definition str_nat (n : nat) : string := NilEmpty.string_of_uint (Nat.to_uint n).

Definition nl : string := String "010"%char EmptyString.
Definition dquote : string := String "034"%char EmptyString.

End Py.

(** ** Regular expressions: the fragment of [re] that is embedded *)

Module Re.

(** The special characters of Python's [re] syntax. *)
Definition special : list ascii :=
  Py.chars ".^$*+?{}[]\|()".

Definition is_special (c : ascii) : bool := bool_decide (c ∈ special).

(** Parsed patterns, as [sre_parse] builds them for the fragment. *)
Inductive regex : Type :=
  | Empty                          (* the empty sequence *)
  | Literal (c : ascii)
  | AnyChar                        (* [.], without DOTALL *)
  | Cat (r1 r2 : regex)
  | Branch (r1 r2 : regex)         (* [r1|r2] *)
  | Subpattern (r : regex).        (* [(r)] *)

Inductive re_error : Type :=
  | MissingParen       (* missing ), unterminated subpattern *)
  | UnbalancedParen    (* unbalanced parenthesis *)
  | OtherError.        (* any error of a pattern outside the fragment *)

Inductive compile_result : Type :=
  | Compiled (r : regex)
  | Error (e : re_error)
  | OutsideFragment.

(** A frame of the parser: the alternatives already closed by a [|] and the
    sequence being read. *)
Definition frame : Type := option regex * regex.

Definition add_branch (alts : option regex) (cur : regex) : regex :=
  match alts with
  | None => cur
  | Some a => Branch a cur
  end.

Definition close (f : frame) : regex := add_branch (fst f) (snd f).

Definition push_item (f : frame) (r : regex) : frame := (fst f, Cat (snd f) r).

(** One pass over the pattern, with the stack of the groups that are open. *)
Fixpoint parse (p : list ascii) (top : frame) (stack : list frame) : compile_result :=
  match p with
  | [] =>
      match stack with
      | [] => Compiled (close top)
      | _ :: _ => Error MissingParen
      end
  | c :: p' =>
      if bool_decide (c = "("%char) then parse p' (None, Empty) (top :: stack)
      else if bool_decide (c = ")"%char) then
        match stack with
        | [] => Error UnbalancedParen
        | up :: stack' => parse p' (push_item up (Subpattern (close top))) stack'
        end
      else if bool_decide (c = "|"%char) then parse p' (Some (close top), Empty) stack
      else if bool_decide (c = "."%char) then parse p' (push_item top AnyChar) stack
      else if is_special c then OutsideFragment
      else parse p' (push_item top (Literal c)) stack
  end.

(** [re.compile(pattern, re.IGNORECASE)] on the fragment *)
Definition compile (pattern : string) : compile_result :=
  parse (Py.chars pattern) (None, Empty) [].

(** [matches r s] lists what is left of [s] after each way [r] can match at
    its start; literals compare modulo case, as under [re.IGNORECASE]. *)
Fixpoint matches (r : regex) (s : list ascii) : list (list ascii) :=
  match r with
  | Empty => [s]
  | Literal c =>
      match s with
      | d :: s' => if bool_decide (Py.lower d = Py.lower c) then [s'] else []
      | [] => []
      end
  | AnyChar =>
      match s with
      | d :: s' => if bool_decide (d = "010"%char) then [] else [s']
      | [] => []
      end
  | Cat r1 r2 => flat_map (matches r2) (matches r1 s)
  | Branch r1 r2 => matches r1 s ++ matches r2 s
  | Subpattern r' => matches r' s
  end.

Definition matches_at (r : regex) (s : list ascii) : bool :=
  match matches r s with
  | [] => false
  | _ :: _ => true
  end.

(** [regex.search(s) is not None]: a match starting at some position,
    the end of the text included. *)
Fixpoint search (r : regex) (s : list ascii) : bool :=
  matches_at r s ||
  match s with
  | [] => false
  | _ :: s' => search r s'
  end.

End Re.

(** ** The cover crop table *)

(** A field of the table as [read_csv] delivers it: its text, or [NaN] for a
    field left empty.  Numeric fields are kept as their text. *)
Inductive cell : Type :=
  | Str (s : string)
  | NaN.

#[global] Instance cell_eq_dec : EqDecision cell.
Proof. solve_decision. Defined.

(** The ten farming goals offered by the first multiselect. *)
Inductive goal : Type :=
  | Cashcrop_compatibility | Erosion_fighter | Good_grazing | Grain_harvest
  | Lasting_residue | Mechanical_forage | Nitrogen_source | Quick_growth
  | Soil_builder | Weed_fighter.

#[global] Instance goal_eq_dec : EqDecision goal.
Proof. solve_decision. Defined.

(** The column that holds the flag of a goal. *)
Definition column (g : goal) : string :=
  match g with
  | Cashcrop_compatibility => "Cashcrop compatibility"
  | Erosion_fighter => "Erosion fighter"
  | Good_grazing => "Good grazing"
  | Grain_harvest => "Grain harvest"
  | Lasting_residue => "Lasting residue"
  | Mechanical_forage => "Mechanical forage"
  | Nitrogen_source => "Nitrogen source"
  | Quick_growth => "Quick growth"
  | Soil_builder => "Soil builder"
  | Weed_fighter => "Weed fighter"
  end.

Definition goal_columns : list string :=
  [ "Cashcrop compatibility"; "Erosion fighter"; "Good grazing";
    "Grain harvest"; "Lasting residue"; "Mechanical forage";
    "Nitrogen source"; "Quick growth"; "Soil builder"; "Weed fighter" ].

(** One record of the table.  The script splits every entry of the column
    [Target Cash Crops] while it starts (lines 23 to 25), which only text
    supports, so that column is text in every table the handlers see. *)
Record row : Type := Row {
  cover_crop : cell;
  cashcrop_compatibility : cell;
  erosion_fighter : cell;
  good_grazing : cell;
  grain_harvest : cell;
  lasting_residue : cell;
  mechanical_forage : cell;
  nitrogen_source : cell;
  quick_growth : cell;
  soil_builder : cell;
  weed_fighter : cell;
  target_cash_crops : string;
  planting_months : cell;
  termination_months : cell;
  seed_cost_per_acre : cell;
  termination_cost_per_acre : cell;
  notes : cell
}.

#[global] Instance row_eq_dec : EqDecision row.
Proof. solve_decision. Defined.

(** [record[goal]] *)
Definition flag (r : row) (g : goal) : cell :=
  match g with
  | Cashcrop_compatibility => cashcrop_compatibility r
  | Erosion_fighter => erosion_fighter r
  | Good_grazing => good_grazing r
  | Grain_harvest => grain_harvest r
  | Lasting_residue => lasting_residue r
  | Mechanical_forage => mechanical_forage r
  | Nitrogen_source => nitrogen_source r
  | Quick_growth => quick_growth r
  | Soil_builder => soil_builder r
  | Weed_fighter => weed_fighter r
  end.

(** A record restricted to [display_cols]. *)
Record display_row : Type := DisplayRow {
  d_cover_crop : cell;
  d_planting_months : cell;
  d_termination_months : cell;
  d_seed_cost_per_acre : cell;
  d_termination_cost_per_acre : cell;
  d_notes : cell
}.

#[global] Instance display_row_eq_dec : EqDecision display_row.
Proof. solve_decision. Defined.

Definition display_cols : list string :=
  [ "Cover Crop"; "Planting Months"; "TerminationMonths";
    "SeedCostPerAcre"; "TerminationCostPerAcre"; "Notes" ].

Definition display (r : row) : display_row :=
  {| d_cover_crop := cover_crop r;
     d_planting_months := planting_months r;
     d_termination_months := termination_months r;
     d_seed_cost_per_acre := seed_cost_per_acre r;
     d_termination_cost_per_acre := termination_cost_per_acre r;
     d_notes := notes r |}.

(** [cell == 'Yes'] *)
Definition is_yes (c : cell) : bool := bool_decide (c = Str "Yes").

(** ** The completion service and the other library calls *)

Record message : Type := Message { role : string; content : string }.

(** The arguments of [client.chat.completions.create]; the temperature is
    the decimal literal of the source. *)
Record request : Type := Request {
  model : string;
  messages : list message;
  temperature : Q;
  max_tokens : Z
}.

(** What the service does with a request: a response, given by the text of
    each of its choices, or a fault, given by its description [str(e)]. *)
Inductive reply : Type :=
  | Completion (choices : list string)
  | Fault (description : string).

(** The library functions the script calls and does not define.  The
    service answers a request knowing the requests sent before it, so two
    equal requests need not get equal answers.  [re_other] is [re.compile]
    with [re.IGNORECASE] on the patterns outside the embedded fragment: the
    search function of the compiled pattern, or nothing when it raises.
    [compiles_empty_series] says whether [str.contains] compiles its pattern
    when the column has no entry (it does for columns of Python objects, it
    does not for Arrow-backed columns). *)
Class External : Type := {
  to_csv : list display_row -> string;           (* [frame.to_csv(index=False)] *)
  repr : string -> string;                       (* [{text!r}] *)
  completions_create : list request -> request -> reply;
  re_other : string -> option (list ascii -> bool);
  compiles_empty_series : bool
}.

(** ** The filter, on the record sequences themselves *)

Inductive result (E A : Type) : Type :=
  | Ok (a : A)
  | Raised (e : E).

Arguments Ok {E A} a.
Arguments Raised {E A} e.

(** [frame[mask]] for a mask as long as the frame. *)
Fixpoint select {A : Type} (rows : list A) (mask : list bool) : list A :=
  match rows, mask with
  | r :: rows', b :: mask' => if b then r :: select rows' mask' else select rows' mask'
  | _, _ => []
  end.

(** Lines 82 and 83: one turn of the loop keeps the records whose flag for
    [g] is ["Yes"]; the loop runs the turns in the order of the selection. *)
Definition goal_step (g : goal) (rows : list row) : list row :=
  select rows (map (fun r => is_yes (flag r g)) rows).

Definition goal_loop (selected_goals : list goal) (rows : list row) : list row :=
  fold_left (fun filtered g => goal_step g filtered) selected_goals rows.

(** Line 84. *)
Definition crop_pattern (selected_cash_crops : list string) : string :=
  Py.join "|" (map Py.strip selected_cash_crops).

Section Filter.
Context `{External}.

(** [re.compile(pat, re.IGNORECASE)], as the search function of the
    compiled pattern. *)
Definition re_compile (pat : string) : result Re.re_error (list ascii -> bool) :=
  match Re.compile pat with
  | Re.Compiled r => Ok (Re.search r)
  | Re.Error e => Raised e
  | Re.OutsideFragment =>
      match re_other pat with
      | Some found => Ok found
      | None => Raised Re.OtherError
      end
  end.

(** [series.str.contains(pat, case=False)]: the mask, or the exception
    raised for the pattern.  A column without entries gives the empty mask
    without the pattern being compiled, unless [compiles_empty_series]. *)
Definition str_contains (series : list string) (pat : string) : result Re.re_error (list bool) :=
  match series, compiles_empty_series with
  | [], false => Ok []
  | _, _ =>
      match re_compile pat with
      | Ok found => Ok (map (fun s => found (Py.chars s)) series)
      | Raised e => Raised e
      end
  end.

(** Lines 84 and 85 on the records left by the goals. *)
Definition crop_step (selected_cash_crops : list string) (rows : list row)
    : result Re.re_error (list row) :=
  match str_contains (map target_cash_crops rows) (crop_pattern selected_cash_crops) with
  | Ok mask => Ok (select rows mask)
  | Raised e => Raised e
  end.

(** Lines 81 to 85 as one function of the table and the two selections. *)
Definition filtered (table : list row) (selected_goals : list goal)
    (selected_cash_crops : list string) : result Re.re_error (list row) :=
  crop_step selected_cash_crops (goal_loop selected_goals table).
End Filter.

(** ** The state of a run and the monad of the script *)

(** The objects of the store: data frames with every column, and data
    frames restricted to [display_cols]. *)
Inductive object : Type :=
  | Frame (rows : list row)
  | View (rows : list display_row).

(** What the script puts on the page. *)
Inductive element : Type :=
  | Markdown (body : string)
  | Image (path : string)
  | Warning (body : string)
  | ErrorBox (body : string)
  | Success (body : string)
  | Dataframe (rows : list display_row)
  | Spinner (body : string)
  | Write (body : string)
  | Html (body : string).

Record state : Type := State {
  objects : list object;                 (* the store; a reference is an index *)
  session_state : gmap string string;    (* [st.session_state] *)
  page : list element;                   (* the elements shown, in order *)
  sent : list request                    (* the requests sent to the service *)
}.

(** The exceptions of the request: those of [get_ai_summary]. *)
Inductive request_exn : Type :=
  | IndexError                           (* [response.choices[0]] on no choice *)
  | ServiceError (description : string).

(** [str(e)] *)
Definition str_exn (e : request_exn) : string :=
  match e with
  | IndexError => "list index out of range"
  | ServiceError d => d
  end.

Inductive outcome (E A : Type) : Type :=
  | Returns (a : A) (s : state)
  | Raises (e : E) (s : state).

Arguments Returns {E A} a s.
Arguments Raises {E A} e s.

Definition M (E A : Type) : Type := state -> outcome E A.

Definition ret {E A} (a : A) : M E A := fun s => Returns a s.

Definition bind {E A B} (m : M E A) (k : A -> M E B) : M E B :=
  fun s =>
    match m s with
    | Returns a s' => k a s'
    | Raises e s' => Raises e s'
    end.

Definition raise {E A} (e : E) : M E A := fun s => Raises e s.

(** [try: body except Exception as e: handler(e)] *)
Definition try_except {E E' A} (body : M E A) (handler : E -> M E' A) : M E' A :=
  fun s =>
    match body s with
    | Returns a s' => Returns a s'
    | Raises e s' => handler e s'
    end.

Declare Scope script_scope.
Delimit Scope script_scope with script.
Notation "x <- m ;; k" := (bind m (fun x => k))
  (at level 100, m at next level, right associativity) : script_scope.
Notation "m ;;; k" := (bind m (fun _ => k))
  (at level 100, right associativity) : script_scope.

(** The records of the frame behind a reference (none for anything else). *)
Definition rows_at (s : state) (ref : nat) : list row :=
  match objects s !! ref with
  | Some (Frame rows) => rows
  | _ => []
  end.

(** The records of the restricted frame behind a reference. *)
Definition view_at (s : state) (ref : nat) : list display_row :=
  match objects s !! ref with
  | Some (View rows) => rows
  | _ => []
  end.

Section Primitives.
Context {E : Type}.

(** A new object; its reference is the next free index. *)
Definition alloc (o : object) : M E nat :=
  fun s => Returns (length (objects s))
    {| objects := objects s ++ [o]; session_state := session_state s;
       page := page s; sent := sent s |}.

Definition frame_rows (ref : nat) : M E (list row) :=
  fun s => Returns (rows_at s ref) s.

Definition view_rows (ref : nat) : M E (list display_row) :=
  fun s => Returns (view_at s ref) s.

Definition show (e : element) : M E unit :=
  fun s => Returns tt
    {| objects := objects s; session_state := session_state s;
       page := page s ++ [e]; sent := sent s |}.

(** [st.session_state.key = value] *)
Definition session_set (key value : string) : M E unit :=
  fun s => Returns tt
    {| objects := objects s; session_state := <[key := value]> (session_state s);
       page := page s; sent := sent s |}.

Definition session_get (key : string) : M E (option string) :=
  fun s => Returns (session_state s !! key) s.
End Primitives.

(** ** Data frame operations on the store *)

Section Frames.
Context {E : Type}.

(** [frame.copy()] *)
Definition copy (ref : nat) : M E nat :=
  (rows <- frame_rows ref ;; alloc (Frame rows))%script.

(** [frame[goal] == 'Yes'] *)
Definition eq_yes (ref : nat) (g : goal) : M E (list bool) :=
  (rows <- frame_rows ref ;; ret (map (fun r => is_yes (flag r g)) rows))%script.

(** [frame[mask]] *)
Definition getitem_mask (ref : nat) (mask : list bool) : M E nat :=
  (rows <- frame_rows ref ;; alloc (Frame (select rows mask)))%script.

(** [frame[display_cols]] *)
Definition getitem_cols (ref : nat) : M E nat :=
  (rows <- frame_rows ref ;; alloc (View (map display rows)))%script.

(** [view.reset_index(drop=True)]: a new frame with the same records, the
    row labels (which the embedding does not carry) numbered afresh. *)
Definition reset_index (ref : nat) : M E nat :=
  (rows <- view_rows ref ;; alloc (View rows))%script.

(** Lines 82 and 83. *)
Fixpoint for_goals (goals : list goal) (filtered : nat) : M E nat :=
  match goals with
  | [] => ret filtered
  | g :: goals' =>
      (mask <- eq_yes filtered g ;;
       filtered' <- getitem_mask filtered mask ;;
       for_goals goals' filtered')%script
  end.
End Frames.

(** ** The filter and the recommendation request on the store *)

Section Script.
Context `{External}.

(** [frame['Target Cash Crops'].str.contains(pat, case=False)] *)
Definition contains (ref : nat) (pat : string) : M Re.re_error (list bool) :=
  (rows <- frame_rows ref ;;
   match str_contains (map target_cash_crops rows) pat with
   | Ok mask => ret mask
   | Raised e => raise e
   end)%script.

(** Lines 81 to 85: the reference of the filtered frame. *)
Definition filter_block (df : nat) (selected_goals : list goal)
    (selected_cash_crops : list string) : M Re.re_error nat :=
  (filtered <- copy df ;;
   filtered <- for_goals selected_goals filtered ;;
   mask <- contains filtered (crop_pattern selected_cash_crops) ;;
   getitem_mask filtered mask)%script.

Definition system_content : string :=
  "You are a smart farm advisor helping farmers choose the best cover crops using expert agronomic knowledge.".

(** Lines 31 to 40. *)
Definition prompt (table_text : string) (user_goals user_crops : list string) : string :=
  Py.nl +:+ "You are a professional agricultural advisor." +:+ Py.nl +:+
  "A farmer is rotating the following crops: " +:+ Py.join ", " user_crops +:+
  " and has selected these farming goals: " +:+ Py.join ", " user_goals +:+ "." +:+ Py.nl +:+
  "Based on the following cover crop data, recommend the best one or two options and explain why clearly using agronomic reasoning." +:+ Py.nl +:+
  Py.nl +:+
  "Cover crop data:" +:+ Py.nl +:+
  table_text +:+ Py.nl +:+
  Py.nl +:+
  "Respond in a helpful, professional tone starting with: Based on your farming goals, we recommend..." +:+ Py.nl +:+
  "    ".

(** Lines 41 to 49: the request that is sent. *)
Definition summary_request (table_text : string) (user_goals user_crops : list string) : request :=
  {| model := "llama3-70b-8192";
     messages := [ {| role := "system"; content := system_content |};
                   {| role := "user"; content := prompt table_text user_goals user_crops |} ];
     temperature := 7 # 10;
     max_tokens := 600 |}.

(** [client.chat.completions.create(...)]: the request is sent, and the
    service returns the choices of its response or raises its fault. *)
Definition create (req : request) : M request_exn (list string) :=
  fun s =>
    let s' := {| objects := objects s; session_state := session_state s;
                 page := page s; sent := sent s ++ [req] |} in
    match completions_create (sent s) req with
    | Completion choices => Returns choices s'
    | Fault d => Raises (ServiceError d) s'
    end.

(** Lines 29 to 50. *)
Definition get_ai_summary (recommendation_table : nat) (user_goals user_crops : list string)
    : M request_exn string :=
  (rows <- view_rows recommendation_table ;;
   let table_text := to_csv rows in
   choices <- create (summary_request table_text user_goals user_crops) ;;
   match choices with
   | first :: _ => ret first
   | [] => raise IndexError
   end)%script.

(** ** The two button handlers and the script *)

(** Lines 97 to 104: the request for the records of [filtered]. *)
Definition ask_agronomist (filtered : nat) (selected_goals : list goal)
    (selected_cash_crops : list string) : M Re.re_error unit :=
  (show (Markdown "<h3 style='color: #bb0000;'>Smart Recommendation from AI Agronomist</h3>") ;;;
   show (Spinner "Analyzing cover crops...") ;;;
   try_except
     (table <- getitem_cols filtered ;;
      response <- get_ai_summary table (map column selected_goals) selected_cash_crops ;;
      session_set "ai_response" response ;;;
      show (Write response))
     (fun e => show (ErrorBox ("AI Error: " +:+ str_exn e))))%script.

(** Lines 78 to 104: the body of the first button. *)
Definition recommendations (df : nat) (selected_goals : list goal)
    (selected_cash_crops : list string) : M Re.re_error unit :=
  if bool_decide (selected_goals = []) || bool_decide (selected_cash_crops = []) then
    show (Warning "Please select at least one goal and one or more cash crops.")
  else
    (filtered <- filter_block df selected_goals selected_cash_crops ;;
     rows <- frame_rows filtered ;;
     if bool_decide (rows = []) then
       show (ErrorBox "No matching cover crops found.")
     else
       (show (Success ("Found " +:+ Py.str_nat (length rows) +:+ " matching cover crop(s).")) ;;;
        shown <- getitem_cols filtered ;;
        shown <- reset_index shown ;;
        shown_rows <- view_rows shown ;;
        show (Dataframe shown_rows) ;;;
        ask_agronomist filtered selected_goals selected_cash_crops))%script.

(** Lines 108 to 119: the page fragment that speaks the text again. *)
Definition speech_html (ai_response : string) : string :=
  Py.nl +:+
  "            <script>" +:+ Py.nl +:+
  "                var msg = new SpeechSynthesisUtterance(" +:+ repr ai_response +:+ ");" +:+ Py.nl +:+
  "                msg.lang = " +:+ Py.dquote +:+ "en-US" +:+ Py.dquote +:+ ";" +:+ Py.nl +:+
  "                msg.pitch = 1;" +:+ Py.nl +:+
  "                msg.rate = 1;" +:+ Py.nl +:+
  "                msg.volume = 1;" +:+ Py.nl +:+
  "                var voices = window.speechSynthesis.getVoices();" +:+ Py.nl +:+
  "                msg.voice = voices.find(v => v.name.includes('Female') || v.name.includes('Google')) || voices[0];" +:+ Py.nl +:+
  "                window.speechSynthesis.speak(msg);" +:+ Py.nl +:+
  "            </script>" +:+ Py.nl +:+
  "        ".

(** What the user did before this run of the script: the two selections
    and which button, if any, was pressed. *)
Record inputs : Type := Inputs {
  selected_goals : list goal;
  selected_cash_crops : list string;
  recommend_pressed : bool;
  speak_pressed : bool
}.

(** Lines 106 to 119. *)
Definition speak_again (i : inputs) : M Re.re_error unit :=
  (ai_response <- session_get "ai_response" ;;
   match ai_response with
   | Some text =>
       if bool_decide (text = "") then ret tt
       else if speak_pressed i then show (Html (speech_html text))
       else ret tt
   | None => ret tt
   end)%script.

(** Lines 74 and 75. *)
Definition init_session : M Re.re_error unit :=
  (ai_response <- session_get "ai_response" ;;
   match ai_response with
   | Some _ => ret tt
   | None => session_set "ai_response" ""
   end)%script.

Definition banner : string :=
  Py.nl +:+
  "    <div style='background-color: #bb0000; padding: 20px;'>" +:+ Py.nl +:+
  "        <h1 style='color: white; text-align: center;'>The Ohio State University</h1>" +:+ Py.nl +:+
  "        <h3 style='color: white; text-align: center;'>Soil, Water & Bioenergy Research Team<br>OSU South Centers</h3>" +:+ Py.nl +:+
  "    </div>" +:+ Py.nl.

Definition heading : string :=
  Py.nl +:+
  "    <div style='background-color: #f2f2f2; padding: 25px; border-radius: 10px; margin-top: 20px;'>" +:+ Py.nl +:+
  "        <h2 style='text-align: center; color: #bb0000;'>Cover Crop Selection Guide</h2>" +:+ Py.nl.

(** Lines 53 to 121: what a run does once the table is loaded.  The
    selection widgets and the buttons are read from [inputs]; the page
    shows what the script writes. *)
Definition layout (df : nat) (i : inputs) : M Re.re_error unit :=
  (show (Markdown banner) ;;;
   show (Image "Cover crop image.png") ;;;
   show (Markdown heading) ;;;
   init_session ;;;
   (if recommend_pressed i
    then recommendations df (selected_goals i) (selected_cash_crops i)
    else ret tt) ;;;
   speak_again i ;;;
   show (Markdown "</div>"))%script.

(** One run of the script, from line 13 on: Streamlit runs it once per
    user action, with the session state of the run before; [csv] is the
    content of the file that [pd.read_csv] loads. *)
Definition script (csv : list row) (i : inputs) : M Re.re_error unit :=
  (df <- alloc (Frame csv) ;; layout df i)%script.
End Script.

(** ** The options of the crop multiselect (lines 22 to 26) *)

(** [entry.split(sep)] for a separator of one character. *)
Fixpoint split (sep : ascii) (l : list ascii) : list (list ascii) :=
  match l with
  | [] => [[]]
  | c :: l' =>
      if bool_decide (c = sep) then [] :: split sep l'
      else match split sep l' with
           | w :: ws => (c :: w) :: ws
           | [] => [[c]]
           end
  end.

Definition cash_crops (table : list row) : gset string :=
  fold_left
    (fun crops entry =>
       fold_left (fun crops crop => crops ∪ {[ Py.strip (Py.text crop) ]})
         (split ","%char (Py.chars entry)) crops)
    (map target_cash_crops table) ∅.

Definition cash_crop_options (table : list row) : list string :=
  merge_sort String.le (elements (cash_crops table)).

(** ** Case-insensitive substring search, as the specification words it *)

(** [starts_with_ci name field]: [field] begins with [name], modulo case. *)
Fixpoint starts_with_ci (name field : list ascii) : bool :=
  match name, field with
  | [], _ => true
  | c :: name', d :: field' =>
      bool_decide (Py.lower d = Py.lower c) && starts_with_ci name' field'
  | _ :: _, [] => false
  end.

(** [find_ci name field]: [name] occurs in [field] at some position, modulo
    case. *)
Fixpoint find_ci (name field : list ascii) : bool :=
  starts_with_ci name field ||
  match field with
  | [] => false
  | _ :: field' => find_ci name field'
  end.

(** The field contains at least one of the crop names. *)
Definition contains_any (names : list string) (field : string) : bool :=
  existsb (fun name => find_ci (Py.chars name) (Py.chars field)) names.

(** A name without any special character of [re]. *)
Definition plain (name : string) : Prop :=
  Forall (fun c => Re.is_special c = false) (Py.chars name).

(** The record passes every selected goal. *)
Definition all_yes (selected_goals : list goal) (r : row) : bool :=
  forallb (fun g => is_yes (flag r g)) selected_goals.

#[global] Instance plain_dec name : Decision (plain name).
Proof. unfold plain. apply _. Defined.

(** ** The pattern of plain names *)

(** The sequence of literals read after [cur]. *)
Definition literals (cur : Re.regex) (w : list ascii) : Re.regex :=
  fold_left (fun r c => Re.Cat r (Re.Literal c)) w cur.

(** The alternation of the names that follow the alternatives [alts]. *)
Fixpoint branches (alts : option Re.regex) (name : list ascii) (names : list (list ascii))
    : Re.regex :=
  match names with
  | [] => Re.add_branch alts (literals Re.Empty name)
  | name' :: names' =>
      branches (Some (Re.add_branch alts (literals Re.Empty name))) name' names'
  end.

(** What the alternatives closed so far match at the start of [s]. *)
Definition matches_at_alts (alts : option Re.regex) (s : list ascii) : bool :=
  match alts with
  | Some a => Re.matches_at a s
  | None => false
  end.

(** ** Predicates on runs *)

(** [allocates s s']: from [s] to [s'] objects were added to the store and
    nothing else changed. *)
Definition allocates (s s' : state) : Prop :=
  objects s `prefix_of` objects s' ∧
  session_state s' = session_state s ∧ page s' = page s ∧ sent s' = sent s.

(** [grows m]: whatever [m] does, the objects of the store stay in place. *)
Definition grows {E A} (m : M E A) : Prop :=
  ∀ s, match m s with
       | Returns _ s' | Raises _ s' => objects s `prefix_of` objects s'
       end.

(** The state in which a run reaches the first button: the table is
    loaded, the banner, the image and the heading are on the page, and
    ["ai_response"] is in the session state (lines 13 to 75). *)
Definition ready (csv : list row) (s : state) : state :=
  {| objects := objects s ++ [Frame csv];
     session_state :=
       match session_state s !! "ai_response" with
       | Some _ => session_state s
       | None => <["ai_response" := ""]> (session_state s)
       end;
     page := page s ++ [Markdown banner; Image "Cover crop image.png"; Markdown heading];
     sent := sent s |}.

(** [changes n s s']: from [s] to [s'] the page and the requests sent were
    only extended, by at most [n] requests, and the session state changed at
    most under ["ai_response"], which was not removed. *)
Definition changes (n : nat) (s s' : state) : Prop :=
  page s `prefix_of` page s' ∧ sent s `prefix_of` sent s' ∧
  length (sent s') ≤ length (sent s) + n ∧
  (∀ k, k ≠ "ai_response" → session_state s' !! k = session_state s !! k) ∧
  (is_Some (session_state s !! "ai_response") →
   is_Some (session_state s' !! "ai_response")).

Create HintDb store.

(** ** Sample data *)

Definition example_row (name crops soil weed : string) : row :=
  {| cover_crop := Str name;
     cashcrop_compatibility := Str "No"; erosion_fighter := Str "No";
     good_grazing := Str "No"; grain_harvest := Str "No";
     lasting_residue := Str "No"; mechanical_forage := NaN;
     nitrogen_source := Str "No"; quick_growth := Str "yes";
     soil_builder := Str soil; weed_fighter := Str weed;
     target_cash_crops := crops;
     planting_months := Str "Sep-Oct"; termination_months := Str "Apr-May";
     seed_cost_per_acre := Str "25"; termination_cost_per_acre := Str "12";
     notes := NaN |}.

Definition rye : row := example_row "Cereal Rye" "Corn, Soybeans" "Yes" "Yes".
Definition clover : row := example_row "Crimson Clover" "Corn (sweet), Wheat" "Yes" "No".
Definition radish : row := example_row "Oilseed Radish" "sorghum, WHEAT" "No" "Yes".

(** A service that is out of quota, and a [re] that rejects every pattern
    outside the fragment. *)
Definition example_external : External :=
  {| to_csv := fun rows => Py.str_nat (length rows);
     repr := fun text => text;
     completions_create := fun _ _ => Fault "rate limit exceeded";
     re_other := fun _ => None;
     compiles_empty_series := true |}.

(** A service that answers with two choices, and one whose response has
    no choice. *)
Definition example_advisor : External :=
  {| to_csv := fun rows => Py.str_nat (length rows);
     repr := fun text => text;
     completions_create := fun _ _ =>
       Completion ["Based on your farming goals, we recommend Cereal Rye."; "Crimson Clover"];
     re_other := fun _ => None;
     compiles_empty_series := false |}.

Definition example_silent : External :=
  {| to_csv := fun rows => Py.str_nat (length rows);
     repr := fun text => text;
     completions_create := fun _ _ => Completion [];
     re_other := fun _ => None;
     compiles_empty_series := false |}.

(** The start of a session, and a session that holds a text. *)
Definition fresh_state : state :=
  {| objects := []; session_state := ∅; page := []; sent := [] |}.

Definition spoken_state : state :=
  {| objects := []; session_state := {[ "ai_response" := "Plant cereal rye." ]};
     page := []; sent := [] |}.

Definition example_state : state :=
  {| objects := [Frame [rye; clover; radish]]; session_state := {[ "ai_response" := "" ]};
     page := []; sent := [] |}.

(** * Proofs *)

(** ** Text *)

Lemma chars_text l : Py.chars (Py.text l) = l.
Proof. apply list_ascii_of_string_of_list_ascii. Qed.

Lemma text_chars s : Py.text (Py.chars s) = s.
Proof. apply string_of_list_ascii_of_string. Qed.

Lemma chars_append s t : Py.chars (s +:+ t) = Py.chars s ++ Py.chars t.
Proof. induction s as [|c s IH]; simpl; [done | by rewrite <- IH]. Qed.

Lemma chars_join sep name names :
  Py.chars (Py.join sep (name :: names)) =
  Py.chars name ++
  match names with
  | [] => []
  | _ :: _ => Py.chars sep ++ Py.chars (Py.join sep names)
  end.
Proof.
  unfold Py.join. destruct names as [|n ns]; simpl.
  - by rewrite app_nil_r.
  - by rewrite !chars_append.
Qed.

Lemma lstrip_suffix l : Py.lstrip l `suffix_of` l.
Proof.
  induction l as [|c l IH]; simpl; [done |].
  destruct (Py.isspace c); [by apply suffix_cons_r | done].
Qed.

Lemma rstrip_prefix l : Py.rstrip l `prefix_of` l.
Proof.
  induction l as [|c l IH]; simpl; [done |].
  destruct (Py.rstrip l) as [|d r] eqn:Hr.
  - destruct (Py.isspace c); [apply prefix_nil | apply prefix_cons, prefix_nil].
  - by apply prefix_cons.
Qed.

(** Stripping only removes characters at the two ends. *)
Lemma strip_infix s : ∃ pre post, Py.chars s = pre ++ Py.chars (Py.strip s) ++ post.
Proof.
  unfold Py.strip. rewrite chars_text.
  destruct (lstrip_suffix (Py.chars s)) as [pre Hpre].
  destruct (rstrip_prefix (Py.lstrip (Py.chars s))) as [post Hpost].
  exists pre, post. by rewrite <- Hpost.
Qed.

Lemma plain_strip s : plain s → plain (Py.strip s).
Proof.
  unfold plain. intros Hs. destruct (strip_infix s) as (pre & post & Heq).
  rewrite Heq in Hs. apply Forall_app in Hs as [_ Hs].
  by apply Forall_app in Hs as [Hs _].
Qed.

Lemma plain_char c :
  Re.is_special c = false →
  c ≠ "("%char ∧ c ≠ ")"%char ∧ c ≠ "|"%char ∧ c ≠ "."%char.
Proof. intros Hc. repeat split; intros ->; vm_compute in Hc; discriminate. Qed.

Lemma parse_literals w rest alts cur stack :
  Forall (fun c => Re.is_special c = false) w →
  Re.parse (w ++ rest) (alts, cur) stack = Re.parse rest (alts, literals cur w) stack.
Proof.
  intros Hw. revert cur. induction Hw as [|c w Hc Hw IH]; intros cur; [done |].
  destruct (plain_char c Hc) as (H1 & H2 & H3 & H4). simpl.
  rewrite !bool_decide_eq_false_2, Hc by done. apply IH.
Qed.

Lemma parse_join names name alts :
  plain name → Forall plain names →
  Re.parse (Py.chars (Py.join "|" (name :: names))) (alts, Re.Empty) [] =
  Re.Compiled (branches alts (Py.chars name) (map Py.chars names)).
Proof.
  intros Hname Hnames. revert name alts Hname.
  induction Hnames as [|name' names Hname' Hnames IH]; intros name alts Hname;
    rewrite chars_join.
  - rewrite parse_literals by done. done.
  - rewrite parse_literals by done. simpl Py.chars at 1. cbn [app Re.parse].
    rewrite bool_decide_eq_false_2, bool_decide_eq_false_2, bool_decide_eq_true_2 by done.
    rewrite IH by done. done.
Qed.

(** ** What the pattern of plain names matches *)

Lemma existsb_pointwise {A} (f g : A → bool) l :
  (∀ x, f x = g x) → existsb f l = existsb g l.
Proof. intros Hfg. induction l as [|x l IH]; simpl; [done |]. by rewrite Hfg, IH. Qed.

Lemma forallb_pointwise {A} (f g : A → bool) l :
  (∀ x, f x = g x) → forallb f l = forallb g l.
Proof. intros Hfg. induction l as [|x l IH]; simpl; [done |]. by rewrite Hfg, IH. Qed.

Lemma existsb_flat_map {A B} (f : B → bool) (g : A → list B) l :
  existsb f (flat_map g l) = existsb (fun x => existsb f (g x)) l.
Proof. induction l as [|x l IH]; simpl; [done |]. by rewrite existsb_app, IH. Qed.

Lemma existsb_orb {A} (f g : A → bool) l :
  existsb f l || existsb g l = existsb (fun x => f x || g x) l.
Proof.
  induction l as [|x l IH]; simpl; [done |]. rewrite <- IH.
  destruct (f x), (g x), (existsb f l); done.
Qed.

Lemma matches_at_existsb r s : Re.matches_at r s = existsb (fun _ => true) (Re.matches r s).
Proof. unfold Re.matches_at. by destruct (Re.matches r s). Qed.

Lemma matches_at_cat r1 r2 s :
  Re.matches_at (Re.Cat r1 r2) s = existsb (Re.matches_at r2) (Re.matches r1 s).
Proof.
  rewrite matches_at_existsb. simpl. rewrite existsb_flat_map.
  apply existsb_pointwise. intros t. by rewrite matches_at_existsb.
Qed.

Lemma matches_at_branch r1 r2 s :
  Re.matches_at (Re.Branch r1 r2) s = Re.matches_at r1 s || Re.matches_at r2 s.
Proof. rewrite !matches_at_existsb. simpl. by rewrite existsb_app. Qed.

Lemma matches_at_literals w cur s :
  Re.matches_at (literals cur w) s = existsb (starts_with_ci w) (Re.matches cur s).
Proof.
  revert cur. induction w as [|c w IH]; intros cur.
  - apply matches_at_existsb.
  - simpl literals. rewrite IH. simpl Re.matches. rewrite existsb_flat_map.
    apply existsb_pointwise. intros [|d t]; simpl; [done |].
    case_bool_decide; simpl; [by rewrite orb_false_r | done].
Qed.

Lemma matches_at_name w s : Re.matches_at (literals Re.Empty w) s = starts_with_ci w s.
Proof. rewrite matches_at_literals. simpl. by rewrite orb_false_r. Qed.

Lemma matches_at_add_branch alts r s :
  Re.matches_at (Re.add_branch alts r) s = matches_at_alts alts s || Re.matches_at r s.
Proof. destruct alts; simpl; [apply matches_at_branch | done]. Qed.

Lemma matches_at_branches names name alts s :
  Re.matches_at (branches alts name names) s =
  matches_at_alts alts s || existsb (fun n => starts_with_ci n s) (name :: names).
Proof.
  revert name alts. induction names as [|name' names IH]; intros name alts.
  - simpl. by rewrite matches_at_add_branch, matches_at_name, orb_false_r.
  - simpl branches. rewrite IH. simpl matches_at_alts.
    rewrite matches_at_add_branch, matches_at_name. simpl. by rewrite <- orb_assoc.
Qed.

Lemma search_branches names name s :
  Re.search (branches None name names) s = existsb (fun n => find_ci n s) (name :: names).
Proof.
  induction s as [|c s IH]; cbn [Re.search]; rewrite matches_at_branches;
    cbn [matches_at_alts orb].
  - rewrite orb_false_r. apply existsb_pointwise. intros n. simpl. by rewrite orb_false_r.
  - rewrite IH, existsb_orb. done.
Qed.

(** The empty pattern is found in every text. *)
Lemma search_empty s : Re.search Re.Empty s = true.
Proof. by destruct s. Qed.

(** ** [find_ci] is the case-insensitive substring test *)

Lemma starts_with_ci_spec name field :
  starts_with_ci name field = true ↔
  ∃ post, map Py.lower field = map Py.lower name ++ post.
Proof.
  revert field. induction name as [|c name IH]; intros field; simpl.
  - split; [intros _; by eexists | done].
  - destruct field as [|d field]; simpl.
    + split; [done | intros [post Hpost]; discriminate].
    + rewrite andb_true_iff, bool_decide_eq_true, IH. split.
      * intros [-> [post ->]]. by exists post.
      * intros [post Hpost]. injection Hpost as -> ->. split; [done | by exists post].
Qed.

Lemma find_ci_spec name field :
  find_ci name field = true ↔
  ∃ pre post, map Py.lower field = pre ++ map Py.lower name ++ post.
Proof.
  induction field as [|d field IH]; cbn [find_ci]; rewrite orb_true_iff, starts_with_ci_spec.
  - split.
    + intros [[post Hpost] | ?]; [by exists [], post | done].
    + intros (pre & post & Heq). left. exists post.
      destruct pre; [done | discriminate].
  - rewrite IH. split.
    + intros [[post Hpost] | (pre & post & Hfield)]; [by exists [], post |].
      exists (Py.lower d :: pre), post. simpl. by rewrite Hfield.
    + intros (pre & post & Heq). destruct pre as [|x pre].
      * left. by exists post.
      * right. exists pre, post. simpl in Heq. by injection Heq.
Qed.

(** ** Masks and filters *)

Lemma select_map {A} (p : A → bool) rows : select rows (map p rows) = List.filter p rows.
Proof. induction rows as [|r rows IH]; simpl; [done |]. by rewrite IH. Qed.

Lemma filter_filter {A} (p q : A → bool) l :
  List.filter q (List.filter p l) = List.filter (fun x => p x && q x) l.
Proof.
  induction l as [|x l IH]; simpl; [done |].
  destruct (p x); simpl; [destruct (q x) |]; by rewrite IH.
Qed.

Lemma filter_sublist {A} (p : A → bool) l : List.filter p l `sublist_of` l.
Proof.
  induction l as [|x l IH]; simpl; [done |].
  destruct (p x); [by apply sublist_skip | by apply sublist_cons].
Qed.

Lemma elem_of_filter {A} (p : A → bool) l x : x ∈ List.filter p l ↔ x ∈ l ∧ p x = true.
Proof. rewrite !list_elem_of_In, filter_In. done. Qed.

Lemma goal_step_filter g rows :
  goal_step g rows = List.filter (fun r => is_yes (flag r g)) rows.
Proof. apply select_map. Qed.

(** The loop keeps the records that pass every goal, whatever the order of
    the turns. *)
Lemma goal_loop_filter selected_goals rows :
  goal_loop selected_goals rows = List.filter (all_yes selected_goals) rows.
Proof.
  unfold goal_loop, all_yes. revert rows.
  induction selected_goals as [|g gs IH]; intros rows; simpl.
  - induction rows as [|r rows IHrows]; simpl; [done | by rewrite <- IHrows].
  - by rewrite IH, goal_step_filter, filter_filter.
Qed.

Lemma all_yes_perm gs gs' r : gs ≡ₚ gs' → all_yes gs r = all_yes gs' r.
Proof.
  unfold all_yes. induction 1 as [|g gs gs' _ IH|g g' gs|gs gs' gs'' _ IH1 _ IH2]; simpl.
  - done.
  - by rewrite IH.
  - destruct (is_yes (flag r g)), (is_yes (flag r g')); done.
  - by rewrite IH1.
Qed.

(** ** The filter on the record sequences *)

Section FilterFacts.
Context `{External}.

Lemma existsb_map {A B} (f : B → bool) (g : A → B) l :
  existsb f (map g l) = existsb (fun x => f (g x)) l.
Proof. induction l as [|x l IH]; simpl; [done | by rewrite IH]. Qed.

(** The pattern of plain names compiles, to the search for any of them. *)
Lemma re_compile_plain crops :
  Forall plain crops →
  ∃ found, re_compile (crop_pattern crops) = Ok found ∧
    ∀ field, found (Py.chars field) =
      bool_decide (crops = []) || contains_any (map Py.strip crops) field.
Proof.
  intros Hplain. unfold re_compile, crop_pattern, Re.compile.
  destruct crops as [|crop crops].
  - eexists. split; [done |]. intros field. apply search_empty.
  - apply Forall_cons in Hplain as [Hcrop Hcrops]. simpl map.
    rewrite parse_join.
    + eexists. split; [done |]. intros field.
      rewrite search_branches, bool_decide_eq_false_2 by done.
      unfold contains_any. simpl. by rewrite existsb_map.
    + by apply plain_strip.
    + apply Forall_map. eapply Forall_impl; [done |]. apply plain_strip.
Qed.

Lemma filter_pointwise {A} (p q : A → bool) l :
  (∀ x, p x = q x) → List.filter p l = List.filter q l.
Proof. intros Hpq. apply filter_ext. done. Qed.

Lemma filter_and_nil {A} (p q : A → bool) l :
  List.filter p l = [] → List.filter (fun x => p x && q x) l = [].
Proof. intros Hnil. by rewrite <- filter_filter, Hnil. Qed.

(** The filter in one step: the records that pass every goal and whose
    crop field the compiled pattern is found in; when the goals leave no
    record and an empty column is not compiled for, the result is empty
    whatever the pattern. *)
Lemma filtered_cases table goals crops :
  filtered table goals crops =
  match goal_loop goals table, compiles_empty_series with
  | [], false => Ok []
  | _, _ =>
      match re_compile (crop_pattern crops) with
      | Ok found =>
          Ok (List.filter
                (fun r => all_yes goals r && found (Py.chars (target_cash_crops r))) table)
      | Raised e => Raised e
      end
  end.
Proof.
  unfold filtered, crop_step, str_contains.
  assert (∀ found, select (goal_loop goals table)
            (map (fun s => found (Py.chars s)) (map target_cash_crops (goal_loop goals table))) =
          List.filter
            (fun r => all_yes goals r && found (Py.chars (target_cash_crops r))) table)
    as Hselect.
  { intros found. by rewrite map_map, select_map, goal_loop_filter, filter_filter. }
  destruct (goal_loop goals table) as [|r rows] eqn:Hloop.
  - simpl map. destruct compiles_empty_series;
      [| done]. destruct (re_compile (crop_pattern crops)) as [found|e]; [| done].
    by rewrite <- Hselect.
  - destruct (re_compile (crop_pattern crops)) as [found|e]; [| by destruct compiles_empty_series].
    rewrite <- Hselect. by destruct compiles_empty_series.
Qed.

(** When the pattern compiles, the filter returns the records that pass
    every goal and in whose crop field the pattern is found. *)
Lemma filtered_compiled table goals crops found :
  re_compile (crop_pattern crops) = Ok found →
  filtered table goals crops =
  Ok (List.filter
        (fun r => all_yes goals r && found (Py.chars (target_cash_crops r))) table).
Proof.
  intros Hcompile. rewrite filtered_cases, Hcompile.
  destruct (goal_loop goals table) as [|r rows] eqn:Hloop; [| done].
  destruct compiles_empty_series; [done |].
  rewrite goal_loop_filter in Hloop. by rewrite filter_and_nil.
Qed.

(** When the pattern is rejected, the filter raises, unless the goals
    leave no record and an empty column is not compiled for. *)
Lemma filtered_rejected table goals crops e :
  re_compile (crop_pattern crops) = Raised e →
  filtered table goals crops =
  match goal_loop goals table, compiles_empty_series with
  | [], false => Ok []
  | _, _ => Raised e
  end.
Proof. intros Hcompile. by rewrite filtered_cases, Hcompile. Qed.

(** What a returned result is. *)
Lemma filtered_returns table goals crops rows :
  filtered table goals crops = Ok rows →
  (∃ found, re_compile (crop_pattern crops) = Ok found ∧
     rows = List.filter
       (fun r => all_yes goals r && found (Py.chars (target_cash_crops r))) table) ∨
  (compiles_empty_series = false ∧ goal_loop goals table = [] ∧ rows = []).
Proof.
  destruct (re_compile (crop_pattern crops)) as [found|e] eqn:Hcompile.
  - rewrite (filtered_compiled _ _ _ found Hcompile). intros [= <-]. left. by exists found.
  - rewrite (filtered_rejected _ _ _ e Hcompile).
    destruct (goal_loop goals table); [| by destruct compiles_empty_series].
    destruct compiles_empty_series; [done |]. intros [= <-]. by right.
Qed.

(** The filter raises exactly when the pattern is rejected and the crop
    column is searched. *)
Lemma filtered_raises table goals crops e :
  filtered table goals crops = Raised e ↔
  re_compile (crop_pattern crops) = Raised e ∧
  (goal_loop goals table ≠ [] ∨ compiles_empty_series = true).
Proof.
  destruct (re_compile (crop_pattern crops)) as [found|e'] eqn:Hcompile.
  - rewrite (filtered_compiled _ _ _ found Hcompile). split; [done | by intros [? _]].
  - rewrite (filtered_rejected _ _ _ e' Hcompile).
    destruct (goal_loop goals table) as [|r rows], compiles_empty_series;
      split; try done; try (intros [= ->]; split; [done |]; by auto);
      try (by intros [[= ->] _]).
    by intros [_ [? | ?]].
Qed.

(** For plain crop names the filter returns, and keeps exactly the
    records that pass every goal and contain one of the names. *)
Lemma filtered_plain table goals crops :
  crops ≠ [] → Forall plain crops →
  filtered table goals crops =
  Ok (List.filter
        (fun r => all_yes goals r &&
                  contains_any (map Py.strip crops) (target_cash_crops r)) table).
Proof.
  intros Hne Hplain.
  destruct (re_compile_plain crops Hplain) as (found & Hcompile & Hfound).
  rewrite (filtered_compiled _ _ _ found Hcompile).
  f_equal. apply filter_pointwise. intros r.
  by rewrite Hfound, bool_decide_eq_false_2.
Qed.
End FilterFacts.

(** ** The store only grows *)

Lemma allocates_refl s : allocates s s.
Proof. by repeat split. Qed.

Lemma allocates_trans s1 s2 s3 : allocates s1 s2 → allocates s2 s3 → allocates s1 s3.
Proof.
  intros (? & ? & ? & ?) (? & ? & ? & ?). repeat split; try congruence.
  by etrans.
Qed.

Lemma allocates_lookup s s' ref o :
  allocates s s' → objects s !! ref = Some o → objects s' !! ref = Some o.
Proof. intros [Hpre _] Href. by eapply prefix_lookup_Some. Qed.

Lemma lookup_new {A} (l : list A) x : (l ++ [x]) !! length l = Some x.
Proof. by rewrite list_lookup_middle. Qed.

Section Grows.
Context {E : Type}.

Lemma grows_ret {A} (a : A) : grows (E:=E) (ret a).
Proof. intros s. cbn. reflexivity. Qed.

Lemma grows_raise {A} (e : E) : grows (A:=A) (raise e).
Proof. intros s. cbn. reflexivity. Qed.

Lemma grows_bind {A B} (m : M E A) (k : A → M E B) :
  grows m → (∀ a, grows (k a)) → grows (bind m k).
Proof.
  intros Hm Hk s. unfold bind. specialize (Hm s).
  destruct (m s) as [a s'|e s']; [|done].
  specialize (Hk a s'). destruct (k a s'); by etrans.
Qed.

Lemma grows_try {E' A} (body : M E' A) (handler : E' → M E A) :
  grows body → (∀ e, grows (handler e)) → grows (try_except body handler).
Proof.
  intros Hm Hk s. unfold try_except. specialize (Hm s).
  destruct (body s) as [a s'|e s']; [done |].
  specialize (Hk e s'). destruct (handler e s'); by etrans.
Qed.

Lemma grows_alloc o : grows (E:=E) (alloc o).
Proof. intros s. simpl. by apply prefix_app_r. Qed.

Lemma grows_frame_rows ref : grows (E:=E) (frame_rows ref).
Proof. intros s. cbn. reflexivity. Qed.

Lemma grows_view_rows ref : grows (E:=E) (view_rows ref).
Proof. intros s. cbn. reflexivity. Qed.

Lemma grows_show e : grows (E:=E) (show e).
Proof. intros s. cbn. reflexivity. Qed.

Lemma grows_session_set key value : grows (E:=E) (session_set key value).
Proof. intros s. cbn. reflexivity. Qed.

Lemma grows_session_get key : grows (E:=E) (session_get key).
Proof. intros s. cbn. reflexivity. Qed.
End Grows.

#[export] Hint Resolve grows_ret grows_raise grows_alloc grows_frame_rows
  grows_view_rows grows_show grows_session_set grows_session_get : store.
#[export] Hint Extern 2 (grows (bind _ _)) => apply grows_bind; [| intros ?] : store.
#[export] Hint Extern 2 (grows (try_except _ _)) => apply grows_try; [| intros ?] : store.

Section FrameFacts.
Context {E : Type}.

Lemma grows_copy ref : grows (E:=E) (copy ref).
Proof. unfold copy. auto with store. Qed.

Lemma grows_eq_yes ref g : grows (E:=E) (eq_yes ref g).
Proof. unfold eq_yes. auto with store. Qed.

Lemma grows_getitem_mask ref mask : grows (E:=E) (getitem_mask ref mask).
Proof. unfold getitem_mask. auto with store. Qed.

Lemma grows_getitem_cols ref : grows (E:=E) (getitem_cols ref).
Proof. unfold getitem_cols. auto with store. Qed.

Lemma grows_reset_index ref : grows (E:=E) (reset_index ref).
Proof. unfold reset_index. auto with store. Qed.

Lemma grows_for_goals goals ref : grows (E:=E) (for_goals goals ref).
Proof.
  revert ref. induction goals as [|g goals IH]; intros ref; simpl; [auto with store |].
  apply grows_bind; [apply grows_eq_yes | intros mask].
  apply grows_bind; [apply grows_getitem_mask | intros ref']. apply IH.
Qed.

Lemma rows_at_new s rows :
  rows_at {| objects := objects s ++ [Frame rows]; session_state := session_state s;
             page := page s; sent := sent s |} (length (objects s)) = rows.
Proof. unfold rows_at. simpl. by rewrite lookup_new. Qed.

(** The loop leaves, in an object of the store, the records that
    [goal_loop] keeps. *)
Lemma for_goals_spec goals ref s :
  ∃ ref' s', for_goals (E:=E) goals ref s = Returns ref' s' ∧ allocates s s' ∧
    rows_at s' ref' = goal_loop goals (rows_at s ref).
Proof.
  revert ref s. induction goals as [|g goals IH]; intros ref s.
  - exists ref, s. split; [done |]. split; [apply allocates_refl | done].
  - simpl. unfold bind, eq_yes, getitem_mask, frame_rows, bind, ret, alloc.
    match goal with
    | |- context [for_goals goals ?r ?s0] =>
        destruct (IH r s0) as (ref' & s' & Hrun & Halloc & Href')
    end.
    rewrite Hrun. exists ref', s'. split; [done |]. split.
    + eapply allocates_trans; [| exact Halloc].
      repeat split; simpl. by apply prefix_app_r.
    + by rewrite Href', rows_at_new.
Qed.
End FrameFacts.

#[export] Hint Resolve grows_copy grows_eq_yes grows_getitem_mask grows_getitem_cols
  grows_reset_index grows_for_goals : store.

(** ** The filter on the store *)

Section ScriptFacts.
Context `{External}.

Lemma grows_contains ref pat : grows (contains ref pat).
Proof.
  unfold contains. apply grows_bind; [auto with store | intros rows].
  destruct (str_contains _ _); auto with store.
Qed.

Lemma grows_filter_block df goals crops : grows (filter_block df goals crops).
Proof. unfold filter_block. pose proof grows_contains. auto 10 with store. Qed.

Lemma grows_create req : grows (create req).
Proof.
  intros s. unfold create. destruct (completions_create _ _); cbn; reflexivity.
Qed.

Lemma grows_get_ai_summary table goals crops : grows (get_ai_summary table goals crops).
Proof.
  unfold get_ai_summary. apply grows_bind; [auto with store | intros rows].
  apply grows_bind; [apply grows_create | intros [|first choices]]; auto with store.
Qed.

Lemma grows_ask_agronomist ref goals crops : grows (ask_agronomist ref goals crops).
Proof.
  unfold ask_agronomist. pose proof grows_get_ai_summary. auto 12 with store.
Qed.

Lemma grows_recommendations df goals crops : grows (recommendations df goals crops).
Proof.
  unfold recommendations. destruct (_ || _); [auto with store |].
  apply grows_bind; [apply grows_filter_block | intros ref].
  apply grows_bind; [auto with store | intros rows].
  case_bool_decide; [auto with store |].
  pose proof grows_ask_agronomist. auto 12 with store.
Qed.

Lemma grows_speak_again i : grows (speak_again i).
Proof.
  unfold speak_again. apply grows_bind; [auto with store | intros [text|]];
    [| auto with store].
  case_bool_decide; [auto with store |]. destruct (speak_pressed i); auto with store.
Qed.

Lemma grows_init_session : grows init_session.
Proof.
  unfold init_session. apply grows_bind; [auto with store | intros [text|]];
    auto with store.
Qed.

(** Lines 81 to 85 on the store compute [filtered] of the table behind
    [df], into a new object, or raise what [filtered] raises. *)
Lemma filter_block_run df goals crops s :
  ∃ s1, allocates s s1 ∧
    filter_block df goals crops s =
    match filtered (rows_at s df) goals crops with
    | Ok rows =>
        Returns (length (objects s1))
          {| objects := objects s1 ++ [Frame rows]; session_state := session_state s1;
             page := page s1; sent := sent s1 |}
    | Raised e => Raises e s1
    end.
Proof.
  destruct (for_goals_spec (E:=Re.re_error) goals (length (objects s))
    {| objects := objects s ++ [Frame (rows_at s df)]; session_state := session_state s;
       page := page s; sent := sent s |}) as (ref1 & s1 & Hrun & Halloc & Href1).
  rewrite rows_at_new in Href1.
  exists s1. split.
  { eapply allocates_trans; [| exact Halloc]. repeat split; simpl. by apply prefix_app_r. }
  unfold filter_block, copy, contains, getitem_mask, bind, frame_rows, alloc, ret, raise.
  rewrite Hrun, Href1. unfold filtered, crop_step.
  destruct (str_contains _ _) as [mask|e]; [by rewrite Href1 | done].
Qed.
End ScriptFacts.

(** ** The names the crop multiselect offers are stripped *)

Lemma rstrip_idemp l : Py.rstrip (Py.rstrip l) = Py.rstrip l.
Proof.
  induction l as [|c l IH]; simpl; [done |].
  destruct (Py.rstrip l) as [|d r] eqn:Hr.
  - destruct (Py.isspace c) eqn:Hc; simpl; [done | by rewrite Hc].
  - cbn [Py.rstrip] in IH |- *. by rewrite IH.
Qed.

Lemma lstrip_head l :
  match Py.lstrip l with
  | [] => True
  | c :: _ => Py.isspace c = false
  end.
Proof.
  induction l as [|c l IH]; simpl; [done |].
  destruct (Py.isspace c) eqn:Hc; [done | by simpl].
Qed.

Lemma lstrip_rstrip c l : Py.isspace c = false → Py.lstrip (Py.rstrip (c :: l)) = Py.rstrip (c :: l).
Proof.
  intros Hc. simpl. destruct (Py.rstrip l); rewrite ?Hc; simpl; by rewrite Hc.
Qed.

Lemma strip_idemp s : Py.strip (Py.strip s) = Py.strip s.
Proof.
  unfold Py.strip. rewrite chars_text. f_equal.
  pose proof (lstrip_head (Py.chars s)) as Hhead.
  destruct (Py.lstrip (Py.chars s)) as [|c l]; [done |].
  by rewrite lstrip_rstrip, rstrip_idemp.
Qed.

Lemma elem_of_add_all {A} (f : A → string) l (X : gset string) c :
  c ∈ fold_left (fun crops x => crops ∪ {[ f x ]}) l X ↔ c ∈ X ∨ ∃ x, x ∈ l ∧ c = f x.
Proof.
  revert X. induction l as [|x l IH]; intros X; simpl.
  - split; [by left | intros [? | (x & Hx & _)]; [done | by apply elem_of_nil in Hx]].
  - rewrite IH. rewrite elem_of_union, elem_of_singleton. split.
    + intros [[? | ->] | (y & Hy & ->)]; [by left | right; exists x | right; exists y];
        (split; [| done]); [left | by right].
    + intros [? | (y & Hy & ->)]; [by left; left |].
      apply elem_of_cons in Hy as [-> | Hy]; [left; by right | right; by exists y].
Qed.

Lemma cash_crops_stripped_from entries (X : gset string) c :
  (∀ x, x ∈ X → Py.strip x = x) →
  c ∈ fold_left
        (fun crops entry =>
           fold_left (fun crops crop => crops ∪ {[ Py.strip (Py.text crop) ]})
             (split ","%char (Py.chars entry)) crops)
        entries X →
  Py.strip c = c.
Proof.
  revert X. induction entries as [|entry entries IH]; intros X HX; simpl; [apply HX |].
  apply IH. intros x Hx.
  apply (elem_of_add_all (fun crop => Py.strip (Py.text crop))) in Hx
    as [Hx | (crop & _ & ->)]; [by apply HX | apply strip_idemp].
Qed.

(** Every name offered by the crop multiselect is stripped: stripping it
    again, as line 84 does, changes nothing. *)
Lemma cash_crop_options_stripped table c :
  c ∈ cash_crop_options table → Py.strip c = c.
Proof.
  unfold cash_crop_options, cash_crops. rewrite merge_sort_Permutation, elem_of_elements.
  apply cash_crops_stripped_from. intros x Hx. by apply elem_of_empty in Hx.
Qed.

Lemma selection_stripped table crops :
  crops ⊆ cash_crop_options table → map Py.strip crops = crops.
Proof.
  intros Hsub. induction crops as [|c crops IH]; simpl; [done |].
  rewrite (cash_crop_options_stripped table c), IH; [done | |].
  - intros x Hx. apply Hsub. by right.
  - apply Hsub. by left.
Qed.

(** ** The filter invariant for plain names *)

Section FilterInvariant.
Context `{External}.

(** X6: for a selection of plain names drawn from the options of the table, a
    record is in the filter result exactly when it is in the table, each
    selected goal has the flag ["Yes"], and its crop field contains one of
    the selected names, modulo case. *)
Lemma filter_invariant_plain table goals crops :
  crops ≠ [] → Forall plain crops → crops ⊆ cash_crop_options table →
  ∃ rows, filtered table goals crops = Ok rows ∧
    ∀ r, r ∈ rows ↔
      r ∈ table ∧ (∀ g, g ∈ goals → flag r g = Str "Yes") ∧
      ∃ c pre post, c ∈ crops ∧
        map Py.lower (Py.chars (target_cash_crops r)) =
        pre ++ map Py.lower (Py.chars c) ++ post.
Proof.
  intros Hne Hplain Hoffered. eexists. split; [by apply filtered_plain |].
  intros r. rewrite elem_of_filter, andb_true_iff, (selection_stripped table) by done.
  unfold all_yes, contains_any. rewrite forallb_forall, existsb_exists.
  split.
  - intros (Hr & Hgoals & c & Hc & Hfound). split; [done |]. split.
    + intros g Hg. apply list_elem_of_In, Hgoals in Hg.
      by apply bool_decide_eq_true in Hg.
    + apply find_ci_spec in Hfound as (pre & post & Hfound).
      exists c, pre, post. by rewrite list_elem_of_In.
  - intros (Hr & Hgoals & c & pre & post & Hc & Hfound). split; [done |]. split.
    + intros g Hg. apply bool_decide_eq_true, Hgoals. by apply list_elem_of_In.
    + exists c. split; [by apply list_elem_of_In |]. apply find_ci_spec. by exists pre, post.
Qed.
End FilterInvariant.

(** ** The filter: which records, and in which order *)

Section FilterClaims.
Context `{External}.

(** C1, at an input where the code departs from it.  The table holds one
    record, the crop chosen is one the crop multiselect offers for that
    table, the record has the flag of the chosen goal equal to ["Yes"] and
    its crop field contains the chosen name; yet the filter result is
    empty, because the name is read as a pattern with a group. *)
Theorem filter_misses_name_with_parentheses :
  cash_crop_options [clover] = ["Corn (sweet)"; "Wheat"] ∧
  all_yes [Soil_builder] clover = true ∧
  contains_any ["Corn (sweet)"] (target_cash_crops clover) = true ∧
  filtered [clover] [Soil_builder] ["Corn (sweet)"] = Ok [].
Proof. repeat split; vm_compute; reflexivity. Qed.

(** C4, at an input where the code departs from it.  On the sample
    table, with the goal of soil building and the offered crop name
    ["Corn (sweet)"], the ordered subsequence of the records that satisfy
    the goal and crop conditions is the clover record, and the filter
    returns no record.  What the claim says of membership and order does
    hold of every result: whenever the filter returns, its result is the
    table filtered, in the order of the table, by the goals and by the
    search for the compiled pattern, or it is empty because the goals left
    no record. *)
Theorem filter_result_is_not_the_matching_subsequence :
  List.filter
    (fun r => all_yes [Soil_builder] r &&
              contains_any ["Corn (sweet)"] (target_cash_crops r))
    [rye; clover; radish] = [clover] ∧
  filtered [rye; clover; radish] [Soil_builder] ["Corn (sweet)"] = Ok [] ∧
  ∀ table goals crops rows,
    filtered table goals crops = Ok rows →
    rows `sublist_of` table ∧
    ((∃ found, re_compile (crop_pattern crops) = Ok found ∧
        rows = List.filter
          (fun r => all_yes goals r && found (Py.chars (target_cash_crops r))) table) ∨
     (goal_loop goals table = [] ∧ rows = [])).
Proof.
  split; [by vm_compute |]. split; [by vm_compute |].
  intros table goals crops rows Hrows.
  destruct (filtered_returns _ _ _ _ Hrows) as [(found & Hcompile & ->) | (_ & Hloop & ->)].
  - split; [apply filter_sublist |]. left. by exists found.
  - split; [apply sublist_nil_l |]. by right.
Qed.

(** C5: the turns of the goal loop commute.  For two orders of the same
    goals the loop, and the whole filter, give the same sequence, which is
    the table restricted to the records present in every per-goal
    result. *)
Theorem goal_steps_commute table crops goals goals' :
  goals ≡ₚ goals' →
  goal_loop goals table = goal_loop goals' table ∧
  filtered table goals crops = filtered table goals' crops ∧
  goal_loop goals table =
    List.filter (fun r => forallb (fun g => bool_decide (r ∈ goal_step g table)) goals) table.
Proof.
  intros Hperm.
  assert (goal_loop goals table = goal_loop goals' table) as Hloop.
  { rewrite !goal_loop_filter. apply filter_pointwise. intros r. by apply all_yes_perm. }
  split; [done |]. split; [unfold filtered; by rewrite Hloop |].
  rewrite goal_loop_filter. apply filter_ext_in. intros r Hr. unfold all_yes.
  apply forallb_pointwise. intros g.
  apply list_elem_of_In in Hr. symmetry. apply bool_decide_ext.
  rewrite goal_step_filter, elem_of_filter. unfold is_yes.
  rewrite bool_decide_eq_true. tauto.
Qed.

(** C2, as amended: with no goal the filter is the crop step on the whole
    table; with no crop the pattern is empty, it is found in every crop
    field, and the filter returns the records left by the goals. *)
Theorem filtered_empty_selection table goals crops :
  filtered table [] crops = crop_step crops table ∧
  filtered table goals [] = Ok (goal_loop goals table) ∧
  filtered table [] [] = Ok table.
Proof.
  assert (∀ gs, filtered table gs [] = Ok (goal_loop gs table)) as Hnone.
  { intros gs.
    destruct (re_compile_plain [] (List.Forall_nil plain)) as (found & Hcompile & Hfound).
    rewrite (filtered_compiled _ _ _ found Hcompile), goal_loop_filter.
    f_equal. apply filter_pointwise. intros r. rewrite Hfound. simpl.
    by rewrite andb_true_r. }
  split; [done |]. split; [apply Hnone | apply (Hnone [])].
Qed.
End FilterClaims.

(** ** The handlers on the store *)

Section HandlerClaims.
Context `{External}.

Lemma grows_layout df i : grows (layout df i).
Proof.
  unfold layout. pose proof grows_init_session. pose proof grows_speak_again.
  pose proof grows_recommendations.
  do 4 (apply grows_bind; [auto with store | intros _]).
  apply grows_bind; [destruct (recommend_pressed i); auto with store | intros _].
  auto with store.
Qed.

Lemma grows_lookup {E A} (m : M E A) s ref o :
  grows m → objects s !! ref = Some o →
  match m s with
  | Returns _ s' | Raises _ s' => objects s' !! ref = Some o
  end.
Proof.
  intros Hm Href. specialize (Hm s).
  destruct (m s); by eapply prefix_lookup_Some.
Qed.

(** C9: no run of the script and no button handler changes an object of
    the store.  After a run the table read at its start is the table of
    the file; the handler of the first button leaves every object as it
    was; and the filter reads the table through a copy, its result being
    an object that did not exist before. *)
Theorem table_never_mutated csv i df goals crops s :
  match script csv i s with
  | Returns _ s' | Raises _ s' =>
      objects s' !! length (objects s) = Some (Frame csv) ∧
      ∀ ref o, objects s !! ref = Some o → objects s' !! ref = Some o
  end ∧
  match recommendations df goals crops s with
  | Returns _ s' | Raises _ s' =>
      ∀ ref o, objects s !! ref = Some o → objects s' !! ref = Some o
  end ∧
  match filter_block df goals crops s with
  | Returns ref s' =>
      length (objects s) ≤ ref ∧
      ∀ ref o, objects s !! ref = Some o → objects s' !! ref = Some o
  | Raises _ s' => ∀ ref o, objects s !! ref = Some o → objects s' !! ref = Some o
  end.
Proof.
  split; [| split].
  - unfold script, bind, alloc.
    match goal with
    | |- context [layout ?r i ?s0] =>
        pose proof (grows_layout r i s0) as Hnew; destruct (layout r i s0); simpl in Hnew
    end.
    + split; [eapply prefix_lookup_Some; [apply lookup_new | exact Hnew] |].
      intros ref o Href. eapply prefix_lookup_Some; [done |].
      etrans; [by apply prefix_app_r | exact Hnew].
    + split; [eapply prefix_lookup_Some; [apply lookup_new | exact Hnew] |].
      intros ref o Href. eapply prefix_lookup_Some; [done |].
      etrans; [by apply prefix_app_r | exact Hnew].
  - pose proof (grows_recommendations df goals crops s) as Hall.
    destruct (recommendations df goals crops s); intros ref o Href;
      by eapply prefix_lookup_Some.
  - destruct (filter_block_run df goals crops s) as (s1 & (Hpre & _) & ->).
    destruct (filtered _ _ _) as [rows|e].
    + split; [by apply prefix_length |]. intros ref o Href. simpl.
      eapply prefix_lookup_Some; [done |]. etrans; [done | by apply prefix_app_r].
    + intros ref o Href. by eapply prefix_lookup_Some.
Qed.

(** C7: with no goal or no crop selected the first button shows the
    warning and does nothing else: no object is created (the filter does
    not run), no request is sent, the session state is untouched. *)
Theorem empty_selection_warns df goals crops s :
  goals = [] ∨ crops = [] →
  recommendations df goals crops s =
  Returns tt
    {| objects := objects s; session_state := session_state s;
       page := page s ++ [Warning "Please select at least one goal and one or more cash crops."];
       sent := sent s |}.
Proof.
  intros [-> | ->]; unfold recommendations.
  - done.
  - by rewrite orb_true_r.
Qed.

(** C8: [get_ai_summary] sends one request, whose model is
    ["llama3-70b-8192"], whose temperature is 0.7 and whose token limit is
    600, and returns the text of the first choice of the response as it
    is; a response without choice and a fault of the service are raised. *)
Theorem get_ai_summary_request table goals crops s :
  let req := summary_request (to_csv (view_at s table)) goals crops in
  let s' := {| objects := objects s; session_state := session_state s;
               page := page s; sent := sent s ++ [req] |} in
  model req = "llama3-70b-8192" ∧ temperature req = 7 # 10 ∧ max_tokens req = 600%Z ∧
  get_ai_summary table goals crops s =
  match completions_create (sent s) req with
  | Completion (first :: _) => Returns first s'
  | Completion [] => Raises IndexError s'
  | Fault d => Raises (ServiceError d) s'
  end.
Proof.
  intros req s'. repeat split.
  unfold get_ai_summary, bind, view_rows, create. fold req.
  destruct (completions_create (sent s) req) as [[|first choices]|d]; done.
Qed.
End HandlerClaims.

Ltac store_lookups :=
  repeat first
    [ rewrite lookup_new
    | rewrite lookup_app_l by (rewrite ?length_app; simpl; lia) ].

Section RequestClaims.
Context `{External}.

(** C3: when the service raises a fault for the request of the first
    button, the handler returns: it shows the error box whose text ends
    with the description of the fault, it has sent that one request and
    no other, the session state is the one before the call, and no object
    of the store has changed. *)
Theorem service_fault_is_reported df table goals crops rows d s :
  goals ≠ [] → crops ≠ [] →
  objects s !! df = Some (Frame table) →
  filtered table goals crops = Ok rows → rows ≠ [] →
  completions_create (sent s)
    (summary_request (to_csv (map display rows)) (map column goals) crops) = Fault d →
  ∃ s', recommendations df goals crops s = Returns tt s' ∧
    session_state s' = session_state s ∧
    sent s' = sent s ++
      [summary_request (to_csv (map display rows)) (map column goals) crops] ∧
    page s' = page s ++
      [ Success ("Found " +:+ Py.str_nat (length rows) +:+ " matching cover crop(s).");
        Dataframe (map display rows);
        Markdown "<h3 style='color: #bb0000;'>Smart Recommendation from AI Agronomist</h3>";
        Spinner "Analyzing cover crops...";
        ErrorBox ("AI Error: " +:+ d) ] ∧
    ∀ ref o, objects s !! ref = Some o → objects s' !! ref = Some o.
Proof.
  intros Hgoals Hcrops Hdf Hfiltered Hrows Hfault.
  destruct (filter_block_run df goals crops s) as (s1 & (Hpre & Hsession & Hpage & Hsent) & Hrun).
  assert (rows_at s df = table) as Htable by (unfold rows_at; by rewrite Hdf).
  rewrite Htable, Hfiltered in Hrun.
  unfold recommendations. rewrite !bool_decide_eq_false_2 by done. cbn [orb].
  unfold bind at 1. rewrite Hrun.
  unfold bind at 1. unfold frame_rows at 1. rewrite rows_at_new.
  rewrite bool_decide_eq_false_2 by done.
  cbv beta iota delta [ask_agronomist get_ai_summary getitem_cols reset_index try_except
    bind show frame_rows view_rows alloc create session_set ret rows_at view_at].
  cbn [objects session_state page sent]. store_lookups.
  cbv beta iota zeta. cbn [objects session_state page sent].
  rewrite Hsent, Hfault. simpl.
  eexists. split; [reflexivity |]. simpl. split; [done |]. split; [done |]. split.
  - rewrite Hpage, <- !app_assoc. done.
  - intros ref o Href. repeat apply lookup_app_l_Some. by eapply prefix_lookup_Some.
Qed.

(** C6: two invocations of the filter in a row, on the same table and
    with the same selections, give the same outcome: the same record
    sequence, the first result still in place, or the same exception. *)
Theorem filter_twice_same_output df table goals crops s :
  objects s !! df = Some (Frame table) →
  match filter_block df goals crops s with
  | Returns ref1 s1 =>
      objects s1 !! df = Some (Frame table) ∧
      match filter_block df goals crops s1 with
      | Returns ref2 s2 =>
          rows_at s2 ref2 = rows_at s1 ref1 ∧ rows_at s2 ref1 = rows_at s1 ref1 ∧
          filtered table goals crops = Ok (rows_at s1 ref1)
      | Raises _ _ => False
      end
  | Raises e s1 =>
      objects s1 !! df = Some (Frame table) ∧
      match filter_block df goals crops s1 with
      | Returns _ _ => False
      | Raises e' _ => e' = e
      end
  end.
Proof.
  intros Hdf.
  destruct (filter_block_run df goals crops s) as (s1 & Hs1 & ->).
  assert (rows_at s df = table) as -> by (unfold rows_at; by rewrite Hdf).
  pose proof (allocates_lookup _ _ _ _ Hs1 Hdf) as Hdf1.
  destruct (filtered table goals crops) as [rows|e] eqn:Hfiltered.
  - split; [by apply lookup_app_l_Some |].
    match goal with
    | |- context [filter_block df goals crops ?s'] =>
        destruct (filter_block_run df goals crops s') as (s2 & (Hpre & _) & ->);
        assert (rows_at s' df = table) as ->
          by (unfold rows_at; simpl; by rewrite (lookup_app_l_Some _ _ _ _ Hdf1))
    end.
    rewrite Hfiltered. simpl in Hpre.
    assert (objects s2 !! length (objects s1) = Some (Frame rows)) as Hkept
      by (eapply prefix_lookup_Some; [apply lookup_new | exact Hpre]).
    rewrite !rows_at_new. split; [done |]. split; [| done].
    unfold rows_at. cbn [objects]. by rewrite (lookup_app_l_Some _ _ _ _ Hkept).
  - split; [done |].
    destruct (filter_block_run df goals crops s1) as (s2 & _ & ->).
    assert (rows_at s1 df = table) as -> by (unfold rows_at; by rewrite Hdf1).
    by rewrite Hfiltered.
Qed.

(** C10: the crop step joins the stripped names with [|] and searches the
    result as a regular expression.  For names without special characters
    that is the case-insensitive search for any of the names.  For a name
    with parentheses it is not: ["Corn (sweet)"] is found in a field that
    does not contain it, and with the parenthesis left open the search of
    a column that has an entry raises, which nothing in the handler of the
    button catches: the handler raises whenever a record passes the
    goal. *)
Theorem crop_pattern_is_a_regular_expression crops series :
  crops ≠ [] → Forall plain crops →
  crop_pattern crops = Py.join "|" (map Py.strip crops) ∧
  str_contains series (crop_pattern crops) =
    Ok (map (contains_any (map Py.strip crops)) series) ∧
  (¬ plain "Corn (sweet)" ∧
   str_contains ["Corn sweet"] (crop_pattern ["Corn (sweet)"]) = Ok [true] ∧
   contains_any (map Py.strip ["Corn (sweet)"]) "Corn sweet" = false) ∧
  (¬ plain "Corn (sweet" ∧
   (series ≠ [] →
    str_contains series (crop_pattern ["Corn (sweet"]) = Raised Re.MissingParen) ∧
   ∀ df g s, goal_step g (rows_at s df) ≠ [] →
     ∃ s', recommendations df [g] ["Corn (sweet"] s = Raises Re.MissingParen s').
Proof.
  intros Hne Hplain. split; [done |]. split; [| split].
  - unfold str_contains.
    destruct (re_compile_plain crops Hplain) as (found & -> & Hfound).
    assert (map (fun s => found (Py.chars s)) series =
            map (contains_any (map Py.strip crops)) series) as ->.
    { apply map_ext. intros field. by rewrite Hfound, bool_decide_eq_false_2. }
    destruct series; [by destruct compiles_empty_series | done].
  - split; [| by vm_compute]. by apply (bool_decide_eq_false_1 (plain _)).
  - assert (re_compile (crop_pattern ["Corn (sweet"]) = Raised Re.MissingParen) as Hre
      by reflexivity.
    split; [| split].
    + by apply (bool_decide_eq_false_1 (plain _)).
    + intros Hseries. unfold str_contains. rewrite Hre. by destruct series.
    + intros df g s Hpasses. unfold recommendations. cbn [bool_decide orb].
      rewrite !bool_decide_eq_false_2 by done. cbn [orb]. unfold bind at 1.
      destruct (filter_block_run df [g] ["Corn (sweet"] s) as (s1 & _ & ->).
      rewrite (filtered_rejected _ _ _ _ Hre). change (goal_loop [g] (rows_at s df))
        with (goal_step g (rows_at s df)).
      destruct (goal_step g (rows_at s df)); [done | by exists s1].
Qed.
End RequestClaims.


(** ** The sample table *)

Example goal_columns_are_the_flags :
  map column
    [ Cashcrop_compatibility; Erosion_fighter; Good_grazing; Grain_harvest;
      Lasting_residue; Mechanical_forage; Nitrogen_source; Quick_growth;
      Soil_builder; Weed_fighter ] = goal_columns.
Proof. reflexivity. Qed.

(** One record with the soil flag set and the crops "Corn, Soybeans": it is
    kept for Corn and dropped for Wheat. *)
Example one_record_corn :
  @filtered example_external [rye] [Soil_builder] ["Corn"] = Ok [rye] ∧
  @filtered example_external [rye] [Soil_builder] ["Wheat"] = Ok [].
Proof. split; vm_compute; reflexivity. Qed.

(** A name that is part of a longer crop name matches it, in any case. *)
Example part_of_a_name :
  @filtered example_external [radish] [Weed_fighter] ["Sorg"] = Ok [radish].
Proof. vm_compute. reflexivity. Qed.

(** The flag is compared with ["Yes"] exactly: ["yes"] and an empty field
    do not pass. *)
Example flag_is_exact :
  @filtered example_external [rye] [Quick_growth] ["Corn"] = Ok [] ∧
  @filtered example_external [rye] [Mechanical_forage] ["Corn"] = Ok [].
Proof. split; vm_compute; reflexivity. Qed.

Example options_of_the_sample :
  cash_crop_options [rye; clover; radish] =
  ["Corn"; "Corn (sweet)"; "Soybeans"; "WHEAT"; "Wheat"; "sorghum"].
Proof. vm_compute. reflexivity. Qed.


(** C2, as stated, fails: with no crop selected the record that passes the
  goal is returned, not the empty sequence. *)
Lemma empty_crops_keep_goal_records :
@filtered example_external [rye; radish] [Soil_builder] [] = Ok [rye] ∧
@filtered example_external [rye; radish] [Soil_builder] [] ≠ Ok [].
Proof. split; [by vm_compute | intros Heq; vm_compute in Heq; discriminate]. Qed.

Lemma goal_steps_commute_witness :
[Soil_builder; Weed_fighter] ≡ₚ [Weed_fighter; Soil_builder] ∧
goal_loop [Soil_builder; Weed_fighter] [rye; clover; radish] =
  goal_loop [Weed_fighter; Soil_builder] [rye; clover; radish] ∧
@filtered example_external [rye; clover; radish] [Soil_builder; Weed_fighter] ["Corn"] =
  @filtered example_external [rye; clover; radish] [Weed_fighter; Soil_builder] ["Corn"] ∧
goal_loop [Soil_builder; Weed_fighter] [rye; clover; radish] =
  List.filter
    (fun r => forallb (fun g => bool_decide (r ∈ goal_step g [rye; clover; radish]))
                [Soil_builder; Weed_fighter])
    [rye; clover; radish].
Proof.
split; [apply perm_swap |].
apply (@goal_steps_commute example_external [rye; clover; radish] ["Corn"]).
apply perm_swap.
Defined.

Lemma filter_twice_same_output_witness :
objects example_state !! 0 = Some (Frame [rye; clover; radish]) ∧
match @filter_block example_external 0 [Soil_builder] ["Corn"] example_state with
| Returns ref1 s1 =>
    objects s1 !! 0 = Some (Frame [rye; clover; radish]) ∧
    match @filter_block example_external 0 [Soil_builder] ["Corn"] s1 with
    | Returns ref2 s2 =>
        rows_at s2 ref2 = rows_at s1 ref1 ∧ rows_at s2 ref1 = rows_at s1 ref1 ∧
        @filtered example_external [rye; clover; radish] [Soil_builder] ["Corn"] =
          Ok (rows_at s1 ref1)
    | Raises _ _ => False
    end
| Raises e s1 =>
    objects s1 !! 0 = Some (Frame [rye; clover; radish]) ∧
    match @filter_block example_external 0 [Soil_builder] ["Corn"] s1 with
    | Returns _ _ => False
    | Raises e' _ => e' = e
    end
end.
Proof.
split; [reflexivity |].
apply (@filter_twice_same_output example_external 0 [rye; clover; radish]).
reflexivity.
Defined.

Lemma empty_selection_warns_witness :
([] = @nil goal ∨ ["Corn"] = @nil string) ∧
@recommendations example_external 0 [] ["Corn"] example_state =
Returns tt
  {| objects := objects example_state; session_state := session_state example_state;
     page := page example_state ++
       [Warning "Please select at least one goal and one or more cash crops."];
     sent := sent example_state |}.
Proof.
split; [left; reflexivity |].
apply (@empty_selection_warns example_external). left. reflexivity.
Defined.

Lemma service_fault_is_reported_witness :
@filtered example_external [rye; clover; radish] [Soil_builder] ["Corn"] = Ok [rye; clover] ∧
∃ s', @recommendations example_external 0 [Soil_builder] ["Corn"] example_state =
        Returns tt s' ∧
  session_state s' = session_state example_state ∧
  length (sent s') = 1 ∧
  last (page s') = Some (ErrorBox "AI Error: rate limit exceeded").
Proof.
assert (@filtered example_external [rye; clover; radish] [Soil_builder] ["Corn"] =
        Ok [rye; clover]) as Hfiltered by (vm_compute; reflexivity).
split; [exact Hfiltered |].
destruct (@service_fault_is_reported example_external 0 [rye; clover; radish]
            [Soil_builder] ["Corn"] [rye; clover] "rate limit exceeded" example_state)
  as (s' & Hrun & Hsession & Hsent & Hpage & _).
- discriminate.
- discriminate.
- reflexivity.
- exact Hfiltered.
- discriminate.
- reflexivity.
- exists s'. split; [exact Hrun |]. split; [exact Hsession |].
  split; [rewrite Hsent; reflexivity | rewrite Hpage; reflexivity].
Defined.

Lemma crop_pattern_is_a_regular_expression_witness :
["Corn"; " wheat"] ≠ [] ∧ Forall plain ["Corn"; " wheat"] ∧
crop_pattern ["Corn"; " wheat"] = "Corn|wheat" ∧
@str_contains example_external ["Popcorn, Rye"; "Oats"; "WHEAT"] (crop_pattern ["Corn"; " wheat"]) =
  Ok [true; false; true].
Proof.
assert (Forall plain ["Corn"; " wheat"]) as Hplain
  by (apply (bool_decide_unpack _); vm_compute; exact I).
split; [discriminate |]. split; [exact Hplain |].
destruct (@crop_pattern_is_a_regular_expression example_external ["Corn"; " wheat"]
            ["Popcorn, Rye"; "Oats"; "WHEAT"]) as (Hpattern & Hmask & _).
- discriminate.
- exact Hplain.
- split; [reflexivity | rewrite Hmask; reflexivity].
Defined.

(** ** The options of the crop multiselect *)

Lemma split_nonempty sep l : split sep l ≠ [].
Proof.
  destruct l as [|c l]; simpl; [done |].
  case_bool_decide; [done |]. by destruct (split sep l).
Qed.

(** Joining the pieces of a text with the separator gives the text back. *)
Lemma join_split sep l :
  Py.chars (Py.join (String sep EmptyString) (map Py.text (split sep l))) = l.
Proof.
  induction l as [|c l IH]; [done |]. cbn [split].
  pose proof (split_nonempty sep l) as Hne.
  case_bool_decide as Hc.
  - subst c. cbn [map]. rewrite chars_join.
    destruct (split sep l); [done |]. cbn [map] in *. by rewrite IH.
  - destruct (split sep l) as [|w ws]; [done |]. cbn [map] in *.
    rewrite chars_join in *. rewrite chars_text in *.
    rewrite <- app_comm_cons. by rewrite IH.
Qed.

Lemma join_infix sep pieces w :
  w ∈ pieces →
  ∃ pre post, Py.chars (Py.join sep (map Py.text pieces)) = pre ++ w ++ post.
Proof.
  induction pieces as [|p pieces IH]; [by intros ?%elem_of_nil |].
  simpl map. rewrite chars_join, chars_text. intros [-> | Hw]%elem_of_cons.
  - by exists [], (match map Py.text pieces with
                   | [] => []
                   | _ :: _ => Py.chars sep ++ Py.chars (Py.join sep (map Py.text pieces))
                   end).
  - destruct (IH Hw) as (pre & post & Heq).
    destruct pieces as [|p' pieces]; [by apply elem_of_nil in Hw |].
    simpl map in *. rewrite Heq.
    exists (p ++ Py.chars sep ++ pre), post. by rewrite <- !app_assoc.
Qed.

(** A piece of [entry.split(sep)] is a part of the entry without any
    separator in it. *)
Lemma split_piece sep l w :
  w ∈ split sep l → (sep ∉ w) ∧ ∃ pre post, l = pre ++ w ++ post.
Proof.
  intros Hw. split.
  - revert w Hw. induction l as [|c l IH]; intros w; simpl.
    + intros ->%list_elem_of_singleton. apply not_elem_of_nil.
    + case_bool_decide as Hc.
      * intros [-> | Hw]%elem_of_cons; [apply not_elem_of_nil | by apply IH].
      * destruct (split sep l) as [|w0 ws].
        -- intros ->%list_elem_of_singleton. by intros ->%list_elem_of_singleton.
        -- intros [-> | Hw]%elem_of_cons.
           ++ intros [-> | Hin]%elem_of_cons; [done |]. revert Hin. apply IH. by left.
           ++ apply IH. by right.
  - destruct (join_infix (String sep EmptyString) _ _ Hw) as (pre & post & Heq).
    rewrite join_split in Heq. by exists pre, post.
Qed.

Lemma strip_chars_infix l :
  ∃ pre post, l = pre ++ Py.rstrip (Py.lstrip l) ++ post.
Proof.
  destruct (lstrip_suffix l) as [pre Hpre].
  destruct (rstrip_prefix (Py.lstrip l)) as [post Hpost].
  exists pre, post. by rewrite <- Hpost.
Qed.

Lemma elem_of_cash_crops entries (X : gset string) c :
  c ∈ fold_left
        (fun crops entry =>
           fold_left (fun crops crop => crops ∪ {[ Py.strip (Py.text crop) ]})
             (split ","%char (Py.chars entry)) crops)
        entries X ↔
  c ∈ X ∨ ∃ entry piece, entry ∈ entries ∧ piece ∈ split ","%char (Py.chars entry) ∧
            c = Py.strip (Py.text piece).
Proof.
  revert X. induction entries as [|entry entries IH]; intros X; simpl.
  - split; [by left | intros [? | (? & ? & []%elem_of_nil & _)]; done].
  - rewrite IH, (elem_of_add_all (fun crop => Py.strip (Py.text crop))). split.
    + intros [[? | (piece & Hpiece & ->)] | (e & piece & He & Hpiece & ->)].
      * by left.
      * right. exists entry, piece. split; [by left | done].
      * right. exists e, piece. split; [by right | done].
    + intros [? | (e & piece & [-> | He]%elem_of_cons & Hpiece & ->)].
      * by left; left.
      * left. right. by exists piece.
      * right. by exists e, piece.
Qed.

Lemma cash_crops_member table c :
  c ∈ cash_crops table ↔
  ∃ r piece, r ∈ table ∧ piece ∈ split ","%char (Py.chars (target_cash_crops r)) ∧
    c = Py.strip (Py.text piece).
Proof.
  unfold cash_crops. rewrite elem_of_cash_crops. split.
  - intros [[]%elem_of_empty | (entry & piece & Hentry & Hpiece & ->)].
    apply list_elem_of_fmap in Hentry as (r & -> & Hr). by exists r, piece.
  - intros (r & piece & Hr & Hpiece & ->). right.
    exists (target_cash_crops r), piece. split; [| done].
    by apply list_elem_of_fmap_2.
Qed.

Lemma elem_of_options table c : c ∈ cash_crop_options table ↔ c ∈ cash_crops table.
Proof. unfold cash_crop_options. by rewrite merge_sort_Permutation, elem_of_elements. Qed.

(** The stripped text of a piece of a field occurs in the field, and has
    no separator in it. *)
Lemma stripped_piece_occurs sep field piece :
  piece ∈ split sep field →
  (sep ∉ Py.chars (Py.strip (Py.text piece))) ∧
  ∃ pre post, field = pre ++ Py.chars (Py.strip (Py.text piece)) ++ post.
Proof.
  intros (Hsep & pre & post & Hfield)%split_piece.
  unfold Py.strip. rewrite !chars_text.
  destruct (strip_chars_infix piece) as (pre' & post' & Hpiece). split.
  - intros Hin. apply Hsep. rewrite Hpiece, !elem_of_app. auto.
  - exists (pre ++ pre'), (post' ++ post).
    rewrite Hfield. rewrite Hpiece at 1. by rewrite <- !app_assoc.
Qed.

(** X1: what the crop multiselect offers.  A name is offered exactly when it
    is the stripped text of one of the comma-separated pieces of the crop
    field of some record. *)
Theorem cash_crop_options_spec table c :
  c ∈ cash_crop_options table ↔
  ∃ r piece, r ∈ table ∧ piece ∈ split ","%char (Py.chars (target_cash_crops r)) ∧
    c = Py.strip (Py.text piece).
Proof. rewrite elem_of_options. apply cash_crops_member. Qed.

(** X3: an offered name is stripped, has no comma, and occurs as it is in
    the crop field of a record of the table. *)
Theorem cash_crop_options_wellformed table c :
  c ∈ cash_crop_options table →
  Py.strip c = c ∧ (","%char ∉ Py.chars c) ∧
  ∃ r pre post, r ∈ table ∧
    Py.chars (target_cash_crops r) = pre ++ Py.chars c ++ post.
Proof.
  intros Hc. split; [by eapply cash_crop_options_stripped |].
  apply elem_of_options, cash_crops_member in Hc as (r & piece & Hr & Hpiece & ->).
  apply stripped_piece_occurs in Hpiece as (Hcomma & pre & post & Hfield).
  split; [done |]. by exists r, pre, post.
Qed.

(** X4: the options depend on the records of the table only, not on their
    order or on how often a record occurs. *)
Theorem cash_crop_options_of_records table table' :
  (∀ r, r ∈ table ↔ r ∈ table') → cash_crop_options table = cash_crop_options table'.
Proof.
  intros Hsame. unfold cash_crop_options. f_equal. f_equal. apply set_eq. intros c.
  rewrite !cash_crops_member. by setoid_rewrite Hsame.
Qed.

(** ** How the filter composes *)

Lemma filter_sublist_impl {A} (p q : A → bool) l :
  (∀ x, p x = true → q x = true) → List.filter p l `sublist_of` List.filter q l.
Proof.
  intros Hpq. induction l as [|x l IH]; simpl; [done |].
  destruct (p x) eqn:Hp.
  - rewrite (Hpq x Hp). by apply sublist_skip.
  - destruct (q x); [by apply sublist_cons | done].
Qed.

Lemma all_yes_app goals goals' r :
  all_yes (goals ++ goals') r = all_yes goals r && all_yes goals' r.
Proof. unfold all_yes. apply forallb_app. Qed.

Lemma contains_any_app names names' field :
  contains_any (names ++ names') field = contains_any names field || contains_any names' field.
Proof. unfold contains_any. apply existsb_app. Qed.

Section FilterAlgebra.
Context `{External}.

(** X5: a name finds the record it was read from, and only records that
    hold it.  Take a record of the table and one comma-separated piece of
    its crop field, and let the name be the stripped piece, as the crop
    multiselect offers it.  If the name has no special character, the
    filter for that name alone returns; the record is in the result
    whenever it passes the selected goals; and every record of the result
    has the name in its crop field, modulo case. *)
Theorem offered_plain_name_finds_its_record table r piece goals :
  r ∈ table → piece ∈ split ","%char (Py.chars (target_cash_crops r)) →
  plain (Py.strip (Py.text piece)) →
  Py.strip (Py.text piece) ∈ cash_crop_options table ∧
  ∃ rows, filtered table goals [Py.strip (Py.text piece)] = Ok rows ∧
    (all_yes goals r = true → r ∈ rows) ∧
    ∀ r', r' ∈ rows →
      r' ∈ table ∧ all_yes goals r' = true ∧
      ∃ pre post, map Py.lower (Py.chars (target_cash_crops r')) =
        pre ++ map Py.lower (Py.chars (Py.strip (Py.text piece))) ++ post.
Proof.
  intros Hr Hpiece Hplain.
  assert (Py.strip (Py.text piece) ∈ cash_crop_options table) as Hoffered.
  { apply elem_of_options, cash_crops_member. by exists r, piece. }
  split; [done |].
  pose proof (cash_crop_options_stripped table _ Hoffered) as Hstrip.
  apply stripped_piece_occurs in Hpiece as (_ & pre & post & Hfield).
  eexists. split; [apply filtered_plain; [done | by constructor] |].
  cbn [map]. rewrite Hstrip. unfold contains_any. cbn [existsb]. split.
  - intros Hgoals. apply elem_of_filter. split; [done |].
    rewrite Hgoals, orb_false_r. simpl. apply find_ci_spec.
    exists (map Py.lower pre), (map Py.lower post). by rewrite Hfield, !map_app.
  - intros r' (Hr' & Hkeep)%elem_of_filter.
    apply andb_true_iff in Hkeep as [Hgoals Hfound]. rewrite orb_false_r in Hfound.
    split; [done |]. split; [done |]. by apply find_ci_spec.
Qed.

(** X7: filtering is idempotent: the filter applied to its own result, with
    the same selections, returns that result unchanged. *)
Theorem filtered_idempotent table goals crops rows :
  filtered table goals crops = Ok rows → filtered rows goals crops = Ok rows.
Proof.
  intros [(found & Hcompile & ->) | (Hlazy & _ & ->)]%filtered_returns.
  - rewrite (filtered_compiled _ _ _ found Hcompile). f_equal.
    rewrite filter_filter. apply filter_pointwise. intros r. by rewrite andb_diag.
  - rewrite filtered_cases, goal_loop_filter, Hlazy. done.
Qed.

(** X8: each record is judged on its own: the filter of two tables put end
    to end is the two filter results put end to end, and it raises exactly
    when either does. *)
Theorem filtered_app table1 table2 goals crops :
  filtered (table1 ++ table2) goals crops =
  match filtered table1 goals crops, filtered table2 goals crops with
  | Ok rows1, Ok rows2 => Ok (rows1 ++ rows2)
  | Raised e, _ | _, Raised e => Raised e
  end.
Proof.
  destruct (re_compile (crop_pattern crops)) as [found|e] eqn:Hcompile.
  - rewrite !(filtered_compiled _ _ _ found Hcompile). by rewrite List.filter_app.
  - rewrite !(filtered_rejected _ _ _ e Hcompile), !goal_loop_filter, List.filter_app.
    destruct (List.filter (all_yes goals) table1), (List.filter (all_yes goals) table2),
      compiles_empty_series; done.
Qed.

(** X9: selecting more goals can only drop records: the result for the
    longer goal selection is a subsequence of the result for the shorter
    one. *)
Theorem more_goals_fewer_records table goals goals' crops rows :
  filtered table goals crops = Ok rows →
  ∃ rows', filtered table (goals ++ goals') crops = Ok rows' ∧ rows' `sublist_of` rows.
Proof.
  intros [(found & Hcompile & ->) | (Hlazy & Hloop & ->)]%filtered_returns.
  - rewrite (filtered_compiled _ _ _ found Hcompile). eexists. split; [done |].
    apply filter_sublist_impl. intros r. rewrite all_yes_app, !andb_true_iff. tauto.
  - exists []. split; [| done]. rewrite filtered_cases, Hlazy.
    assert (goal_loop (goals ++ goals') table = []) as ->; [| done].
    rewrite goal_loop_filter in *. apply sublist_nil_r. rewrite <- Hloop.
    apply filter_sublist_impl. intros r. rewrite all_yes_app, andb_true_iff. tauto.
Qed.

(** X10: for names without special characters, selecting more crops can only
    add records: the result for the shorter crop selection is a subsequence
    of the result for the longer one. *)
Theorem more_crops_more_records table goals crops crops' :
  crops ≠ [] → Forall plain crops → Forall plain crops' →
  ∃ rows rows', filtered table goals crops = Ok rows ∧
    filtered table goals (crops ++ crops') = Ok rows' ∧ rows `sublist_of` rows'.
Proof.
  intros Hne Hplain Hplain'. eexists _, _. split; [by apply filtered_plain |]. split.
  - apply filtered_plain; [by destruct crops | by apply Forall_app].
  - apply filter_sublist_impl. intros r.
    rewrite map_app, contains_any_app, !andb_true_iff, orb_true_iff. tauto.
Qed.
End FilterAlgebra.

(** ** The outcomes of the first button *)

Section ButtonOutcomes.
Context `{External}.

(** What the body of the first button does with two non-empty selections,
    by the result of the filter and the answer of the service. *)
Lemma recommendations_run df goals crops s :
  goals ≠ [] → crops ≠ [] →
  ∃ s1, allocates s s1 ∧
    recommendations df goals crops s =
    match filtered (rows_at s df) goals crops with
    | Raised e => Raises e s1
    | Ok rows =>
        if bool_decide (rows = []) then
          Returns tt
            {| objects := objects s1 ++ [Frame rows]; session_state := session_state s;
               page := page s ++ [ErrorBox "No matching cover crops found."];
               sent := sent s |}
        else
          let shown := map display rows in
          let req := summary_request (to_csv shown) (map column goals) crops in
          let stored := objects s1 ++ [Frame rows; View shown; View shown; View shown] in
          let shown_so_far :=
            page s ++
            [ Success ("Found " +:+ Py.str_nat (length rows) +:+ " matching cover crop(s).");
              Dataframe shown;
              Markdown "<h3 style='color: #bb0000;'>Smart Recommendation from AI Agronomist</h3>";
              Spinner "Analyzing cover crops..." ] in
          match completions_create (sent s) req with
          | Completion (first :: _) =>
              Returns tt
                {| objects := stored;
                   session_state := <["ai_response" := first]> (session_state s);
                   page := shown_so_far ++ [Write first]; sent := sent s ++ [req] |}
          | Completion [] =>
              Returns tt
                {| objects := stored; session_state := session_state s;
                   page := shown_so_far ++ [ErrorBox "AI Error: list index out of range"];
                   sent := sent s ++ [req] |}
          | Fault d =>
              Returns tt
                {| objects := stored; session_state := session_state s;
                   page := shown_so_far ++ [ErrorBox ("AI Error: " +:+ d)];
                   sent := sent s ++ [req] |}
          end
    end.
Proof.
  intros Hgoals Hcrops.
  destruct (filter_block_run df goals crops s) as (s1 & Hs1 & Hrun).
  exists s1. split; [done |]. destruct Hs1 as (Hpre & Hsession & Hpage & Hsent).
  unfold recommendations. rewrite !bool_decide_eq_false_2 by done. cbn [orb].
  unfold bind at 1. rewrite Hrun.
  destruct (filtered (rows_at s df) goals crops) as [rows|e]; [| done].
  unfold bind at 1. unfold frame_rows at 1. rewrite rows_at_new.
  case_bool_decide as Hrows.
  - unfold show. simpl. by rewrite Hsession, Hpage, Hsent.
  - cbv beta iota delta [ask_agronomist get_ai_summary getitem_cols reset_index try_except
      bind show frame_rows view_rows alloc create session_set ret raise rows_at view_at].
    cbn [objects session_state page sent]. store_lookups.
    cbv beta iota zeta. cbn [objects session_state page sent].
    rewrite Hsession, Hpage, Hsent.
    destruct (completions_create _ _) as [[|first choices]|d]; simpl;
      by rewrite <- !app_assoc.
Qed.

(** X11: when no record passes the filter, the first button reports it: the
    page gets the one error box, no request is sent to the service, and the
    session state is left as it was. *)
Theorem no_match_is_reported df goals crops s :
  goals ≠ [] → crops ≠ [] → filtered (rows_at s df) goals crops = Ok [] →
  ∃ s', recommendations df goals crops s = Returns tt s' ∧
    page s' = page s ++ [ErrorBox "No matching cover crops found."] ∧
    sent s' = sent s ∧ session_state s' = session_state s.
Proof.
  intros Hgoals Hcrops Hnone.
  destruct (recommendations_run df goals crops s Hgoals Hcrops) as (s1 & _ & ->).
  rewrite Hnone. by eexists.
Qed.

(** X12: when the service answers, the first button shows the count of the
    matching records, the records restricted to the display columns, and
    the text of the first choice; that text is stored under ["ai_response"];
    the one request sent carries the table that is shown. *)
Theorem recommendation_is_shown_and_stored df goals crops rows first others s :
  goals ≠ [] → crops ≠ [] →
  filtered (rows_at s df) goals crops = Ok rows → rows ≠ [] →
  completions_create (sent s)
    (summary_request (to_csv (map display rows)) (map column goals) crops) =
    Completion (first :: others) →
  ∃ s', recommendations df goals crops s = Returns tt s' ∧
    session_state s' = <["ai_response" := first]> (session_state s) ∧
    sent s' = sent s ++
      [summary_request (to_csv (map display rows)) (map column goals) crops] ∧
    page s' = page s ++
      [ Success ("Found " +:+ Py.str_nat (length rows) +:+ " matching cover crop(s).");
        Dataframe (map display rows);
        Markdown "<h3 style='color: #bb0000;'>Smart Recommendation from AI Agronomist</h3>";
        Spinner "Analyzing cover crops...";
        Write first ].
Proof.
  intros Hgoals Hcrops Hrows Hne Hreply.
  destruct (recommendations_run df goals crops s Hgoals Hcrops) as (s1 & _ & ->).
  rewrite Hrows, bool_decide_eq_false_2 by done. cbv zeta. rewrite Hreply.
  eexists. split; [reflexivity |]. simpl. by rewrite <- !app_assoc.
Qed.

(** X13: a response without any choice is caught like a fault: the page ends
    with the error box of the index error, and nothing is stored. *)
Theorem empty_response_is_reported df goals crops rows s :
  goals ≠ [] → crops ≠ [] →
  filtered (rows_at s df) goals crops = Ok rows → rows ≠ [] →
  completions_create (sent s)
    (summary_request (to_csv (map display rows)) (map column goals) crops) =
    Completion [] →
  ∃ s', recommendations df goals crops s = Returns tt s' ∧
    session_state s' = session_state s ∧
    last (page s') = Some (ErrorBox "AI Error: list index out of range") ∧
    sent s' = sent s ++
      [summary_request (to_csv (map display rows)) (map column goals) crops].
Proof.
  intros Hgoals Hcrops Hrows Hne Hreply.
  destruct (recommendations_run df goals crops s Hgoals Hcrops) as (s1 & _ & ->).
  rewrite Hrows, bool_decide_eq_false_2 by done. cbv zeta. rewrite Hreply.
  eexists. split; [reflexivity |]. simpl. by rewrite last_snoc.
Qed.

(** The only exception that leaves the first button is the one of the
    filter: the handler raises exactly when both selections are non-empty
    and the filter raises. *)
Lemma recommendations_raises df goals crops s e :
  (∃ s', recommendations df goals crops s = Raises e s') ↔
  goals ≠ [] ∧ crops ≠ [] ∧ filtered (rows_at s df) goals crops = Raised e.
Proof.
  split.
  - intros [s' Hraise].
    destruct goals as [|g goals]; [discriminate |].
    destruct crops as [|c crops]; [discriminate |].
    split; [done |]. split; [done |].
    destruct (recommendations_run df (g :: goals) (c :: crops) s) as (s1 & _ & Hrun);
      [done.. |].
    rewrite Hrun in Hraise.
    destruct (filtered _ _ _) as [rows|e']; [| congruence].
    case_bool_decide; [discriminate |]. cbv zeta in Hraise.
    destruct (completions_create _ _) as [[|first choices]|d]; discriminate.
  - intros (Hgoals & Hcrops & Hfiltered).
    destruct (recommendations_run df goals crops s Hgoals Hcrops) as (s1 & _ & ->).
    rewrite Hfiltered. by exists s1.
Qed.

(** With crop names that have no special character the first button
    always returns. *)
Lemma recommendations_plain_returns df goals crops s :
  Forall plain crops → ∃ s', recommendations df goals crops s = Returns tt s'.
Proof.
  intros Hplain.
  destruct goals as [|g goals]; [by eexists |].
  destruct crops as [|c crops]; [by eexists |].
  destruct (recommendations_run df (g :: goals) (c :: crops) s) as (s1 & _ & ->); [done.. |].
  rewrite filtered_plain by done.
  case_bool_decide; [by eexists |]. cbv zeta.
  destruct (completions_create _ _) as [[|first choices]|d]; by eexists.
Qed.
End ButtonOutcomes.

(** ** One run of the script *)

Lemma changes_refl n s : changes n s s.
Proof. unfold changes. split_and!; [done | done | lia | done | done]. Qed.

Lemma changes_trans a b s1 s2 s3 :
  changes a s1 s2 → changes b s2 s3 → changes (a + b) s1 s3.
Proof.
  intros (? & ? & ? & Hk1 & ?) (? & ? & ? & Hk2 & ?).
  unfold changes. split_and!; [by etrans | by etrans | lia | | auto].
  intros k Hk. by rewrite Hk2, Hk1.
Qed.

Lemma changes_weaken a b s s' : changes a s s' → a ≤ b → changes b s s'.
Proof.
  intros (? & ? & ? & ? & ?) Hab. unfold changes. split_and!; [done | done | lia | done..].
Qed.

Lemma changes_shown s e :
  changes 0
    s {| objects := objects s; session_state := session_state s;
         page := page s ++ [e]; sent := sent s |}.
Proof.
  unfold changes. split_and!; simpl; [by apply prefix_app_r | done | lia | done | done].
Qed.

Section Run.
Context `{External}.

(** The script up to the first button only prepares the state. *)
Lemma script_unfold csv i s :
  script csv i s =
  bind
    (if recommend_pressed i
     then recommendations (length (objects s)) (selected_goals i) (selected_cash_crops i)
     else ret tt)
    (fun _ => bind (speak_again i) (fun _ => show (Markdown "</div>")))
    (ready csv s).
Proof.
  unfold script, layout, ready, bind at 1 2 3 4 5, alloc, show, init_session, bind at 1,
    session_get, session_set. simpl.
  destruct (session_state s !! "ai_response"); simpl; by rewrite <- !app_assoc.
Qed.

Lemma changes_ready csv s : changes 0 s (ready csv s).
Proof.
  unfold changes. split_and!; simpl; [by apply prefix_app_r | done | lia | |].
  - intros k Hk. destruct (session_state s !! "ai_response"); [done |].
    by rewrite lookup_insert_ne.
  - by destruct (session_state s !! "ai_response") eqn:Hai; [rewrite Hai |].
Qed.

Lemma ready_has_response csv s : is_Some (session_state (ready csv s) !! "ai_response").
Proof.
  simpl. destruct (session_state s !! "ai_response") eqn:Hai; [by rewrite Hai |].
  by rewrite lookup_insert_eq.
Qed.

Lemma ready_table csv s : rows_at (ready csv s) (length (objects s)) = csv.
Proof. unfold rows_at, ready. simpl. by rewrite lookup_new. Qed.

Lemma changes_recommendations df goals crops s :
  match recommendations df goals crops s with
  | Returns _ s' | Raises _ s' => changes 1 s s'
  end.
Proof.
  destruct goals as [|g goals];
    [apply (changes_weaken 0); [apply changes_shown | lia] |].
  destruct crops as [|c crops];
    [apply (changes_weaken 0); [apply changes_shown | lia] |].
  destruct (recommendations_run df (g :: goals) (c :: crops) s) as (s1 & Hs1 & ->); [done.. |].
  destruct Hs1 as (_ & Hsession & Hpage & Hsent).
  destruct (filtered _ _ _) as [rows|e].
  - case_bool_decide.
    + unfold changes. split_and!; simpl; [by apply prefix_app_r | done | lia | done | done].
    + cbv zeta. destruct (completions_create _ _) as [[|first choices]|d];
        (unfold changes; split_and!; simpl;
         [ rewrite <- app_assoc; by apply prefix_app_r | by apply prefix_app_r
         | rewrite length_app; simpl; lia | | ]);
        try done.
      * intros k Hk. by rewrite lookup_insert_ne.
      * intros _. by rewrite lookup_insert_eq.
  - unfold changes.
    split_and!; [by rewrite Hpage | by rewrite Hsent | rewrite Hsent; lia | by rewrite Hsession..].
Qed.

Lemma changes_speak_again i s :
  match speak_again i s with
  | Returns _ s' | Raises _ s' => changes 0 s s'
  end.
Proof.
  unfold speak_again, bind, session_get.
  destruct (session_state s !! "ai_response") as [text|]; [| apply changes_refl].
  case_bool_decide; [apply changes_refl |].
  destruct (speak_pressed i); [apply changes_shown | apply changes_refl].
Qed.

(** X16: what a run never does.  Whatever the inputs and whether the run
    returns or raises, the page and the list of requests are only extended,
    at most one request is sent and none unless the first button was
    pressed, no key of the session state other than ["ai_response"] is
    touched, and ["ai_response"] is present afterwards. *)
Theorem run_invariants csv i s :
  match script csv i s with
  | Returns _ s' | Raises _ s' =>
      page s `prefix_of` page s' ∧ sent s `prefix_of` sent s' ∧
      length (sent s') ≤ length (sent s) + 1 ∧
      (recommend_pressed i = false → sent s' = sent s) ∧
      (∀ k, k ≠ "ai_response" → session_state s' !! k = session_state s !! k) ∧
      is_Some (session_state s' !! "ai_response")
  end.
Proof.
  assert (∀ n s', changes n (ready csv s) s' →
            (recommend_pressed i = false → n = 0) → n ≤ 1 →
            page s `prefix_of` page s' ∧ sent s `prefix_of` sent s' ∧
            length (sent s') ≤ length (sent s) + 1 ∧
            (recommend_pressed i = false → sent s' = sent s) ∧
            (∀ k, k ≠ "ai_response" → session_state s' !! k = session_state s !! k) ∧
            is_Some (session_state s' !! "ai_response")) as Hend.
  { intros n s' Hchanges Hidle Hn.
    pose proof (changes_trans 0 n _ _ _ (changes_ready csv s) Hchanges)
      as (Hpage & Hsent & Hlen & Hkeys & _).
    destruct Hchanges as (_ & _ & _ & _ & Hresponse).
    split_and!; [done | done | simpl in *; lia | | done | apply Hresponse, ready_has_response].
    intros Hnot. rewrite (Hidle Hnot) in Hlen. simpl in Hlen.
    destruct Hsent as [more Hmore]. rewrite Hmore, length_app in Hlen.
    destruct more; [by rewrite Hmore, app_nil_r | simpl in Hlen; lia]. }
  rewrite script_unfold. unfold bind at 1.
  destruct (recommend_pressed i) eqn:Hpressed.
  - pose proof (changes_recommendations (length (objects s)) (selected_goals i)
                  (selected_cash_crops i) (ready csv s)) as Hrec.
    destruct (recommendations _ _ _ _) as [[] s1|e s1];
      [| by apply (Hend 1)].
    unfold bind. pose proof (changes_speak_again i s1) as Hspeak.
    destruct (speak_again i s1) as [[] s2|e s2]; [| by apply (Hend (1 + 0)); [eapply changes_trans |..]].
    apply (Hend (1 + 0 + 0)); [| done | lia].
    eapply changes_trans; [by eapply changes_trans | apply changes_shown].
  - unfold ret, bind. pose proof (changes_speak_again i (ready csv s)) as Hspeak.
    destruct (speak_again i (ready csv s)) as [[] s2|e s2]; [| by apply (Hend 0); [| | lia]].
    apply (Hend (0 + 0)); [| done | lia].
    eapply changes_trans; [done | apply changes_shown].
Qed.

(** X17: the second button replays the stored text: with a non-empty text
    under ["ai_response"] and the second button pressed, the run shows the
    speech fragment built from that text, between the heading and the
    closing tag, sends no request and leaves the session state as it is. *)
Theorem stored_text_is_spoken csv i s text :
  session_state s !! "ai_response" = Some text → text ≠ "" →
  recommend_pressed i = false → speak_pressed i = true →
  script csv i s =
  Returns tt
    {| objects := objects s ++ [Frame csv]; session_state := session_state s;
       page := page s ++
         [ Markdown banner; Image "Cover crop image.png"; Markdown heading;
           Html (speech_html text); Markdown "</div>" ];
       sent := sent s |}.
Proof.
  intros Htext Hne Hidle Hspeak. rewrite script_unfold, Hidle.
  unfold bind, ret, speak_again, bind, session_get, show, ready. simpl.
  rewrite Htext. simpl. rewrite Htext, bool_decide_eq_false_2, Hspeak by done.
  simpl. by rewrite <- !app_assoc.
Qed.

(** X18: without a stored text there is nothing to replay: when the first
    button is not pressed and the text under ["ai_response"] is missing or
    empty, or the second button is not pressed, the run shows the banner,
    the image, the heading and the closing tag only, and sends nothing;
    a missing ["ai_response"] is set to the empty text. *)
Theorem nothing_to_speak csv i s :
  recommend_pressed i = false →
  session_state s !! "ai_response" = None ∨ session_state s !! "ai_response" = Some "" ∨
    speak_pressed i = false →
  script csv i s =
  Returns tt
    {| objects := objects s ++ [Frame csv];
       session_state :=
         match session_state s !! "ai_response" with
         | Some _ => session_state s
         | None => <["ai_response" := ""]> (session_state s)
         end;
       page := page s ++
         [ Markdown banner; Image "Cover crop image.png"; Markdown heading;
           Markdown "</div>" ];
       sent := sent s |}.
Proof.
  intros Hidle Hquiet. rewrite script_unfold, Hidle.
  unfold bind, ret, speak_again, bind, session_get, show, ready. simpl.
  destruct (session_state s !! "ai_response") as [text|] eqn:Htext; simpl.
  - rewrite Htext. case_bool_decide; simpl; [by rewrite <- !app_assoc |].
    destruct Hquiet as [? | [? | ->]]; [congruence.. |]. simpl. by rewrite <- !app_assoc.
  - rewrite lookup_insert_eq. simpl. by rewrite <- !app_assoc.
Qed.

(** X19: a recommendation is stored by one run and replayed by the next.
    When a run with the first button pressed gets the text [first] from the
    service, the run after it, with the second button pressed, speaks
    [first] without asking the service again: over the two runs exactly one
    request is sent. *)
Theorem recommendation_then_replay csv i1 i2 rows first others s :
  recommend_pressed i1 = true → speak_pressed i1 = false →
  selected_goals i1 ≠ [] → selected_cash_crops i1 ≠ [] →
  filtered csv (selected_goals i1) (selected_cash_crops i1) = Ok rows → rows ≠ [] →
  completions_create (sent s)
    (summary_request (to_csv (map display rows)) (map column (selected_goals i1))
       (selected_cash_crops i1)) = Completion (first :: others) →
  first ≠ "" →
  recommend_pressed i2 = false → speak_pressed i2 = true →
  ∃ s1 s2, script csv i1 s = Returns tt s1 ∧ script csv i2 s1 = Returns tt s2 ∧
    session_state s1 !! "ai_response" = Some first ∧
    session_state s2 = session_state s1 ∧
    sent s2 = sent s ++
      [summary_request (to_csv (map display rows)) (map column (selected_goals i1))
         (selected_cash_crops i1)] ∧
    page s2 = page s1 ++
      [ Markdown banner; Image "Cover crop image.png"; Markdown heading;
        Html (speech_html first); Markdown "</div>" ].
Proof.
  intros Hpressed Hquiet Hgoals Hcrops Hrows Hne Hreply Hfirst Hidle Hspeak.
  destruct (recommendations_run (length (objects s)) (selected_goals i1)
              (selected_cash_crops i1) (ready csv s) Hgoals Hcrops) as (s0 & _ & Hrun).
  rewrite ready_table, Hrows, bool_decide_eq_false_2 in Hrun by done.
  cbv zeta in Hrun. change (sent (ready csv s)) with (sent s) in Hrun.
  rewrite Hreply in Hrun.
  eexists _, _. split; [| split].
  - rewrite script_unfold, Hpressed. unfold bind at 1. rewrite Hrun.
    unfold bind, speak_again, bind, session_get, show. simpl.
    rewrite lookup_insert_eq, bool_decide_eq_false_2, Hquiet by done. reflexivity.
  - rewrite script_unfold, Hidle.
    unfold bind, ret, speak_again, bind, session_get, show, ready. simpl.
    rewrite lookup_insert_eq. simpl.
    rewrite lookup_insert_eq, bool_decide_eq_false_2, Hspeak by done. reflexivity.
  - simpl. split; [apply lookup_insert_eq |]. split; [done |]. split; [done |].
    by rewrite <- !app_assoc.
Qed.

Lemma speak_again_returns i s :
  ∃ s', bind (speak_again i) (fun _ => show (Markdown "</div>")) s = Returns tt s'.
Proof.
  unfold bind, speak_again, bind, session_get, show.
  destruct (session_state s !! "ai_response") as [text|]; [| by eexists].
  case_bool_decide; [by eexists |]. destruct (speak_pressed i); by eexists.
Qed.

Lemma script_outcome csv i s :
  match script csv i s with
  | Returns _ _ =>
      recommend_pressed i = false ∨
      ∃ s1, recommendations (length (objects s)) (selected_goals i)
              (selected_cash_crops i) (ready csv s) = Returns tt s1
  | Raises e _ =>
      recommend_pressed i = true ∧
      ∃ s1, recommendations (length (objects s)) (selected_goals i)
              (selected_cash_crops i) (ready csv s) = Raises e s1
  end.
Proof.
  rewrite script_unfold. unfold bind at 1.
  destruct (recommend_pressed i).
  - destruct (recommendations _ _ _ _) as [[] s1|e s1]; [| by eauto].
    destruct (speak_again_returns i s1) as [s2 ->]. by eauto.
  - unfold ret. destruct (speak_again_returns i (ready csv s)) as [s2 ->]. by left.
Qed.

(** X14: a run, once the table is loaded, fails in one way only.  The
    script raises exactly when the first button was pressed with both
    selections non-empty, the crop pattern is rejected when it is compiled,
    and the crop column is searched for it: some record passes every
    selected goal, or the column is compiled for even when it is empty.
    The exception is that of the pattern.  Nothing else in a run raises:
    not the service, not the second button. *)
Theorem script_raises_iff csv i s e :
  (∃ s', script csv i s = Raises e s') ↔
  recommend_pressed i = true ∧ selected_goals i ≠ [] ∧ selected_cash_crops i ≠ [] ∧
  re_compile (crop_pattern (selected_cash_crops i)) = Raised e ∧
  (goal_loop (selected_goals i) csv ≠ [] ∨ compiles_empty_series = true).
Proof.
  pose proof (script_outcome csv i s) as Hout.
  pose proof (recommendations_raises (length (objects s)) (selected_goals i)
                (selected_cash_crops i) (ready csv s) e) as Hiff.
  rewrite ready_table, filtered_raises in Hiff. split.
  - intros [s' Hraise]. rewrite Hraise in Hout. destruct Hout as [Hpressed Hrec].
    split; [done |]. by apply Hiff in Hrec.
  - intros (Hpressed & Hgoals & Hcrops & Hcompile & Hsearched).
    destruct (proj2 Hiff) as [s1 Hrec]; [done |].
    destruct (script csv i s) as [[] s'|e' s'].
    + destruct Hout as [? | [s2 ?]]; congruence.
    + destruct Hout as [_ [s2 Hs2]]. exists s'. congruence.
Qed.

(** X15: with selected crop names that have no special character a run
    always returns, whatever the table holds, whatever was selected or
    pressed, and whatever the service does. *)
Theorem plain_names_never_crash csv i s :
  Forall plain (selected_cash_crops i) → ∃ s', script csv i s = Returns tt s'.
Proof.
  intros Hplain. pose proof (script_outcome csv i s) as Hout.
  destruct (script csv i s) as [[] s'|e s']; [by exists s' |].
  destruct Hout as [_ [s1 Hrec]].
  destruct (recommendations_plain_returns (length (objects s)) (selected_goals i)
              (selected_cash_crops i) (ready csv s) Hplain) as [s2 Hs2].
  congruence.
Qed.
End Run.

(** ** Further instances on the sample table *)

Lemma cash_crop_options_wellformed_witness :
  "Soybeans" ∈ cash_crop_options [rye; clover; radish] ∧
  Py.strip "Soybeans" = "Soybeans" ∧ (","%char ∉ Py.chars "Soybeans") ∧
  ∃ r pre post, r ∈ [rye; clover; radish] ∧
    Py.chars (target_cash_crops r) = pre ++ Py.chars "Soybeans" ++ post.
Proof.
  assert ("Soybeans" ∈ cash_crop_options [rye; clover; radish]) as Hoffered
    by (apply (bool_decide_unpack _); vm_compute; exact I).
  split; [exact Hoffered |].
  apply (cash_crop_options_wellformed [rye; clover; radish] "Soybeans" Hoffered).
Defined.

Lemma cash_crop_options_of_records_witness :
  (∀ r, r ∈ [rye; clover] ↔ r ∈ [clover; rye; rye]) ∧
  cash_crop_options [rye; clover] = cash_crop_options [clover; rye; rye].
Proof.
  assert (∀ r, r ∈ [rye; clover] ↔ r ∈ [clover; rye; rye]) as Hsame
    by (intros r; rewrite !elem_of_cons, !elem_of_nil; tauto).
  split; [exact Hsame |].
  apply (cash_crop_options_of_records [rye; clover] [clover; rye; rye] Hsame).
Defined.

Lemma offered_plain_name_finds_its_record_witness :
  rye ∈ [rye; clover; radish] ∧
  Py.chars " Soybeans" ∈ split ","%char (Py.chars (target_cash_crops rye)) ∧
  plain (Py.strip (Py.text (Py.chars " Soybeans"))) ∧
  Py.strip (Py.text (Py.chars " Soybeans")) ∈ cash_crop_options [rye; clover; radish] ∧
  ∃ rows, @filtered example_external [rye; clover; radish] [Soil_builder]
            [Py.strip (Py.text (Py.chars " Soybeans"))] = Ok rows ∧
    (all_yes [Soil_builder] rye = true → rye ∈ rows) ∧
    ∀ r', r' ∈ rows →
      r' ∈ [rye; clover; radish] ∧ all_yes [Soil_builder] r' = true ∧
      ∃ pre post, map Py.lower (Py.chars (target_cash_crops r')) =
        pre ++ map Py.lower (Py.chars (Py.strip (Py.text (Py.chars " Soybeans")))) ++ post.
Proof.
  assert (rye ∈ [rye; clover; radish]) as Hrye by (by left).
  assert (Py.chars " Soybeans" ∈ split ","%char (Py.chars (target_cash_crops rye))) as Hpiece
    by (apply (bool_decide_unpack _); vm_compute; exact I).
  assert (plain (Py.strip (Py.text (Py.chars " Soybeans")))) as Hplain
    by (apply (bool_decide_unpack _); vm_compute; exact I).
  split; [exact Hrye |]. split; [exact Hpiece |]. split; [exact Hplain |].
  apply (@offered_plain_name_finds_its_record example_external _ _ _ [Soil_builder]
           Hrye Hpiece Hplain).
Defined.

Lemma filtered_idempotent_witness :
  @filtered example_external [rye; clover; radish] [Soil_builder] ["Corn"] = Ok [rye; clover] ∧
  @filtered example_external [rye; clover] [Soil_builder] ["Corn"] = Ok [rye; clover].
Proof.
  assert (@filtered example_external [rye; clover; radish] [Soil_builder] ["Corn"] =
          Ok [rye; clover]) as Hrows by (vm_compute; reflexivity).
  split; [exact Hrows |].
  apply (@filtered_idempotent example_external _ _ _ _ Hrows).
Defined.

Lemma more_goals_fewer_records_witness :
  @filtered example_external [rye; clover; radish] [Soil_builder] ["Corn"] = Ok [rye; clover] ∧
  ∃ rows', @filtered example_external [rye; clover; radish] ([Soil_builder] ++ [Weed_fighter])
             ["Corn"] = Ok rows' ∧
    rows' `sublist_of` [rye; clover].
Proof.
  assert (@filtered example_external [rye; clover; radish] [Soil_builder] ["Corn"] =
          Ok [rye; clover]) as Hrows by (vm_compute; reflexivity).
  split; [exact Hrows |].
  apply (@more_goals_fewer_records example_external _ _ [Weed_fighter] _ _ Hrows).
Defined.

Lemma more_crops_more_records_witness :
  ["Soybeans"] ≠ [] ∧ Forall plain ["Soybeans"] ∧ Forall plain ["Wheat"] ∧
  ∃ rows rows', @filtered example_external [rye; clover; radish] [Soil_builder] ["Soybeans"] =
                  Ok rows ∧
    @filtered example_external [rye; clover; radish] [Soil_builder] (["Soybeans"] ++ ["Wheat"]) =
      Ok rows' ∧
    rows `sublist_of` rows'.
Proof.
  assert (Forall plain ["Soybeans"]) as Hplain
    by (apply (bool_decide_unpack _); vm_compute; exact I).
  assert (Forall plain ["Wheat"]) as Hplain'
    by (apply (bool_decide_unpack _); vm_compute; exact I).
  split; [discriminate |]. split; [exact Hplain |]. split; [exact Hplain' |].
  apply (@more_crops_more_records example_external); [discriminate | exact Hplain | exact Hplain'].
Defined.

Lemma no_match_is_reported_witness :
  [Soil_builder] ≠ [] ∧ ["Barley"] ≠ [] ∧
  @filtered example_external (rows_at example_state 0) [Soil_builder] ["Barley"] = Ok [] ∧
  ∃ s', @recommendations example_external 0 [Soil_builder] ["Barley"] example_state =
          Returns tt s' ∧
    page s' = page example_state ++ [ErrorBox "No matching cover crops found."] ∧
    sent s' = sent example_state ∧ session_state s' = session_state example_state.
Proof.
  assert (@filtered example_external (rows_at example_state 0) [Soil_builder] ["Barley"] =
          Ok []) as Hnone by (vm_compute; reflexivity).
  split; [discriminate |]. split; [discriminate |]. split; [exact Hnone |].
  apply (@no_match_is_reported example_external); [discriminate | discriminate | exact Hnone].
Defined.

Lemma recommendation_is_shown_and_stored_witness :
  @filtered example_advisor (rows_at example_state 0) [Soil_builder] ["Corn"] =
    Ok [rye; clover] ∧
  ∃ s', @recommendations example_advisor 0 [Soil_builder] ["Corn"] example_state =
          Returns tt s' ∧
    session_state s' !! "ai_response" =
      Some "Based on your farming goals, we recommend Cereal Rye." ∧
    length (sent s') = 1 ∧
    last (page s') = Some (Write "Based on your farming goals, we recommend Cereal Rye.").
Proof.
  assert (@filtered example_advisor (rows_at example_state 0) [Soil_builder] ["Corn"] =
          Ok [rye; clover]) as Hrows by (vm_compute; reflexivity).
  split; [exact Hrows |].
  destruct (@recommendation_is_shown_and_stored example_advisor 0 [Soil_builder] ["Corn"]
              [rye; clover] "Based on your farming goals, we recommend Cereal Rye."
              ["Crimson Clover"] example_state)
    as (s' & Hrun & Hsession & Hsent & Hpage);
    [discriminate | discriminate | exact Hrows | discriminate | reflexivity |].
  exists s'. split; [exact Hrun |]. split; [| split].
  - rewrite Hsession. apply lookup_insert_eq.
  - rewrite Hsent. reflexivity.
  - rewrite Hpage. reflexivity.
Defined.

Lemma empty_response_is_reported_witness :
  @filtered example_silent (rows_at example_state 0) [Soil_builder] ["Corn"] =
    Ok [rye; clover] ∧
  ∃ s', @recommendations example_silent 0 [Soil_builder] ["Corn"] example_state =
          Returns tt s' ∧
    session_state s' = session_state example_state ∧
    last (page s') = Some (ErrorBox "AI Error: list index out of range") ∧
    length (sent s') = 1.
Proof.
  assert (@filtered example_silent (rows_at example_state 0) [Soil_builder] ["Corn"] =
          Ok [rye; clover]) as Hrows by (vm_compute; reflexivity).
  split; [exact Hrows |].
  destruct (@empty_response_is_reported example_silent 0 [Soil_builder] ["Corn"]
              [rye; clover] example_state)
    as (s' & Hrun & Hsession & Hpage & Hsent);
    [discriminate | discriminate | exact Hrows | discriminate | reflexivity |].
  exists s'. split; [exact Hrun |]. split; [exact Hsession |]. split; [exact Hpage |].
  rewrite Hsent. reflexivity.
Defined.

Lemma plain_names_never_crash_witness :
  Forall plain ["Corn"; "Wheat"] ∧
  ∃ s', @script example_external [rye; clover; radish]
          (Inputs [Soil_builder] ["Corn"; "Wheat"] true false) fresh_state = Returns tt s'.
Proof.
  assert (Forall plain ["Corn"; "Wheat"]) as Hplain
    by (apply (bool_decide_unpack _); vm_compute; exact I).
  split; [exact Hplain |].
  apply (@plain_names_never_crash example_external [rye; clover; radish]
           (Inputs [Soil_builder] ["Corn"; "Wheat"] true false) fresh_state Hplain).
Defined.

Lemma stored_text_is_spoken_witness :
  session_state spoken_state !! "ai_response" = Some "Plant cereal rye." ∧
  @script example_external [rye] (Inputs [] [] false true) spoken_state =
  Returns tt
    {| objects := [Frame [rye]]; session_state := session_state spoken_state;
       page := [ Markdown banner; Image "Cover crop image.png"; Markdown heading;
                 Html (@speech_html example_external "Plant cereal rye.");
                 Markdown "</div>" ];
       sent := [] |}.
Proof.
  assert (session_state spoken_state !! "ai_response" = Some "Plant cereal rye.") as Htext
    by apply lookup_singleton_eq.
  split; [exact Htext |].
  apply (@stored_text_is_spoken example_external [rye] (Inputs [] [] false true) spoken_state
           "Plant cereal rye." Htext); [discriminate | reflexivity | reflexivity].
Defined.

Lemma nothing_to_speak_witness :
  session_state fresh_state !! "ai_response" = None ∧
  @script example_external [rye] (Inputs [] [] false true) fresh_state =
  Returns tt
    {| objects := [Frame [rye]]; session_state := <["ai_response" := ""]> ∅;
       page := [ Markdown banner; Image "Cover crop image.png"; Markdown heading;
                 Markdown "</div>" ];
       sent := [] |}.
Proof.
  assert (session_state fresh_state !! "ai_response" = None) as Hnone by apply lookup_empty.
  split; [exact Hnone |].
  rewrite (@nothing_to_speak example_external [rye] (Inputs [] [] false true) fresh_state);
    [| reflexivity | left; exact Hnone].
  simpl. rewrite lookup_empty. reflexivity.
Defined.

Lemma recommendation_then_replay_witness :
  @filtered example_advisor [rye; clover; radish] [Soil_builder] ["Corn"] = Ok [rye; clover] ∧
  ∃ s1 s2,
    @script example_advisor [rye; clover; radish]
      (Inputs [Soil_builder] ["Corn"] true false) fresh_state = Returns tt s1 ∧
    @script example_advisor [rye; clover; radish] (Inputs [] [] false true) s1 =
      Returns tt s2 ∧
    session_state s1 !! "ai_response" =
      Some "Based on your farming goals, we recommend Cereal Rye." ∧
    length (sent s2) = 1.
Proof.
  assert (@filtered example_advisor [rye; clover; radish] [Soil_builder] ["Corn"] =
          Ok [rye; clover]) as Hrows by (vm_compute; reflexivity).
  split; [exact Hrows |].
  destruct (@recommendation_then_replay example_advisor [rye; clover; radish]
              (Inputs [Soil_builder] ["Corn"] true false) (Inputs [] [] false true)
              [rye; clover] "Based on your farming goals, we recommend Cereal Rye."
              ["Crimson Clover"] fresh_state)
    as (s1 & s2 & Hrun1 & Hrun2 & Hstored & _ & Hsent & _);
    [reflexivity | reflexivity | discriminate | discriminate | exact Hrows | discriminate
    | reflexivity | discriminate | reflexivity | reflexivity |].
  exists s1, s2. split; [exact Hrun1 |]. split; [exact Hrun2 |]. split; [exact Hstored |].
  rewrite Hsent. reflexivity.
Defined.

Lemma filter_invariant_plain_witness :
  ["Corn"; "Wheat"] ≠ [] ∧ Forall plain ["Corn"; "Wheat"] ∧
  ["Corn"; "Wheat"] ⊆ cash_crop_options [rye; clover; radish] ∧
  ∃ rows, @filtered example_external [rye; clover; radish] [Soil_builder] ["Corn"; "Wheat"] =
            Ok rows ∧
    ∀ r, r ∈ rows ↔
      r ∈ [rye; clover; radish] ∧ (∀ g, g ∈ [Soil_builder] → flag r g = Str "Yes") ∧
      ∃ c pre post, c ∈ ["Corn"; "Wheat"] ∧
        map Py.lower (Py.chars (target_cash_crops r)) =
        pre ++ map Py.lower (Py.chars c) ++ post.
Proof.
  assert (Forall plain ["Corn"; "Wheat"]) as Hplain
    by (apply (bool_decide_unpack _); vm_compute; exact I).
  assert (["Corn"; "Wheat"] ⊆ cash_crop_options [rye; clover; radish]) as Hoffered.
  { intros c Hc. apply (bool_decide_unpack _).
    apply elem_of_cons in Hc as [-> | Hc]; [vm_compute; exact I |].
    apply list_elem_of_singleton in Hc as ->. vm_compute. exact I. }
  split; [discriminate |]. split; [exact Hplain |]. split; [exact Hoffered |].
  apply (@filter_invariant_plain example_external); [discriminate | exact Hplain | exact Hoffered].
Defined.
